(** * User service (python_api/main.py): a shallow embedding and its properties

    The service is five FastAPI routes over one SQLAlchemy table.  The
    development is layered the way the program is:

    - [Row], [Database]: the table "users" declared by class UserDB
      (primary key [id], unique [email], unique [user]) and the statements
      the ORM emits against it;
    - [AsyncSession]: the unit of work the handlers talk to (add, execute,
      commit, refresh, rollback, delete, close);
    - [M]: the state-and-exception monad the handlers are written in;
    - the five handlers, transcribed statement by statement;
    - the routes: the handler inside the [get_db] dependency, with the
      status code of the decorator and the mapping of exceptions to
      responses.

    The handlers are main.py line by line.  The table and the session
    are PostgreSQL and SQLAlchemy, which main.py only configures; they are
    modelled as far as the handlers use them: one table with its three
    constraints and its sequence, statements that succeed or fail as a
    whole, a transaction whose writes reach the committed rows at COMMIT
    only.  The ranges are those of the column types and of the driver: an
    id is a 32-bit integer, LIMIT and OFFSET are 64-bit, a text holds no
    NUL character.  Requests are served one at a time. *)

From Stdlib Require Import ZArith Lia.
From stdpp Require Import base decidable option list strings gmap.

Local Open Scope string_scope.
Local Open Scope list_scope.
Local Open Scope Z_scope.

(** ** Data model *)

(** Column(Integer): a 32-bit signed integer.  The values of the type
    are the integers of the range; equality is that of the integers. *)
Definition in_int32 (z : Z) : Prop := -2147483648 <= z <= 2147483647.

#[global] Instance in_int32_dec z : Decision (in_int32 z).
Proof. unfold in_int32. apply _. Defined.

Definition int32 : Type := dsig in_int32.

Definition is_true_dec (b : bool) : {Is_true b} + {¬ Is_true b} :=
  match b with
  | true => left I
  | false => right (fun H => H)
  end.

Definition int32_zero : int32 := 0 ↾ I.

(** The 32-bit integer of an integer of the range, None outside it. *)
Definition int32_of_Z (z : Z) : option int32 :=
  match is_true_dec (bool_decide (in_int32 z)) with
  | left H => Some (z ↾ H)
  | right _ => None
  end.

(** The 32-bit integer written as a numeral of the range. *)
Definition int32_lit (z : Z) : int32 := default int32_zero (int32_of_Z z).

(** What the driver accepts for LIMIT and OFFSET: a 64-bit signed
    integer. *)
Definition in_int64 (z : Z) : Prop :=
  -9223372036854775808 <= z <= 9223372036854775807.

#[global] Instance in_int64_dec z : Decision (in_int64 z).
Proof. unfold in_int64. apply _. Defined.

(** The character U+0000, which a PostgreSQL text cannot hold. *)
Definition NUL : Ascii.ascii := Ascii.zero.

Fixpoint has_nul (s : string) : bool :=
  match s with
  | EmptyString => false
  | String a s' => bool_decide (a = NUL) || has_nul s'
  end.

(** class UserCreate(BaseModel): the request schema. *)
Module UserCreate.
Record t := mk {
  name : string;
  email : string;
  user : string;
  password : string;
}.
End UserCreate.

(** class UserResponse(UserCreate): the response schema, [id] added. *)
Module UserResponse.
Record t := mk {
  id : Z;
  name : string;
  email : string;
  user : string;
  password : string;
}.
End UserResponse.

(** A stored row of table "users"; its id is a value of the Integer
    column. *)
Module Row.
Record t := mk {
  id32 : int32;
  name : string;
  email : string;
  user : string;
  password : string;
}.

(** The id as the integer it is. *)
Definition id (r : t) : Z := proj1_sig (id32 r).

Definition of_values (i : int32) (v : UserCreate.t) : t :=
  mk i (UserCreate.name v) (UserCreate.email v)
       (UserCreate.user v) (UserCreate.password v).

Definition values (r : t) : UserCreate.t :=
  UserCreate.mk (name r) (email r) (user r) (password r).

(** The row of id [i], a numeral of the range. *)
Definition make (i : Z) (name email user password : string) : t :=
  mk (int32_lit i) name email user password.

(** The row with its four values replaced, under the id it has. *)
Definition with_values (v : UserCreate.t) (r : t) : t :=
  of_values (id32 r) v.
End Row.

(** A mapped instance of class UserDB as Python holds it: [id] is None
    until the row has been inserted. *)
Module UserDB.
Record t := mk {
  id : option Z;
  name : string;
  email : string;
  user : string;
  password : string;
}.

(** The constructor call in create_user: every field of the payload is
    passed as a keyword, [id] is left unset. *)
Definition init (v : UserCreate.t) : t :=
  mk None (UserCreate.name v) (UserCreate.email v)
          (UserCreate.user v) (UserCreate.password v).

Definition of_row (r : Row.t) : t :=
  mk (Some (Row.id r)) (Row.name r) (Row.email r) (Row.user r) (Row.password r).

(** The instance once the INSERT has returned its id. *)
Definition with_id (i : Z) (o : t) : t :=
  mk (Some i) (name o) (email o) (user o) (password o).

Definition columns (o : t) : UserCreate.t :=
  UserCreate.mk (name o) (email o) (user o) (password o).

Definition set_name (v : string) (o : t) : t :=
  mk (id o) v (email o) (user o) (password o).
Definition set_email (v : string) (o : t) : t :=
  mk (id o) (name o) v (user o) (password o).
Definition set_user (v : string) (o : t) : t :=
  mk (id o) (name o) (email o) v (password o).
Definition set_password (v : string) (o : t) : t :=
  mk (id o) (name o) (email o) (user o) v.
End UserDB.

(** Exceptions the handlers can see. *)
Inductive exn :=
| HTTPException (status_code : Z) (detail : string)
| IntegrityError          (* a constraint of the table is violated *)
| DBAPIError              (* the engine rejects the statement *)
| PendingRollbackError    (* the transaction has failed and was not rolled back *)
| InvalidRequestError.    (* the instance cannot be used this way *)

Inductive outcome (A : Type) :=
| Returned (a : A)
| Raised (e : exn).
Arguments Returned {A} a.
Arguments Raised {A} e.

(** ** The storage engine *)

(** The committed content of the database: the rows of "users" in the
    order a scan yields them, and the last value of the sequence that feeds
    the primary key.  The sequence starts at 0, so the first id is 1. *)
Record Database := mkDatabase {
  rows : list Row.t;
  users_id_seq : Z;
}.

Definition empty_database : Database := mkDatabase [] 0.

(** A connection inside a transaction: the rows as this transaction sees
    them (its own writes included) and the sequence, which is not
    transactional. *)
Record Conn := mkConn {
  work : list Row.t;
  seq_value : Z;
}.

(** unique=True on [email] and on [user]: row [r] already carries the
    email [e] or the handle [u]. *)
Definition collides (e u : string) (r : Row.t) : Prop :=
  Row.email r = e \/ Row.user r = u.

#[global] Instance collides_dec e u r : Decision (collides e u r).
Proof. unfold collides. apply _. Defined.

(** One of the four values holds a NUL character. *)
Definition nul_in (v : UserCreate.t) : bool :=
  has_nul (UserCreate.name v) || has_nul (UserCreate.email v)
  || has_nul (UserCreate.user v) || has_nul (UserCreate.password v).

(** INSERT INTO users (name, email, "user", password) VALUES (...) RETURNING id.
    A value with a NUL character is refused when the parameters are bound,
    before anything is executed.  The id is the next value of the
    sequence, which ends with the Integer range; a value that was drawn is
    consumed even when the statement then fails.  The statement fails when
    the id is taken (primary_key=True) or when a stored row collides. *)
Definition sql_insert (v : UserCreate.t) (c : Conn) : outcome Z * Conn :=
  if nul_in v then (Raised DBAPIError, c)
  else
    let i := seq_value c + 1 in
    match int32_of_Z i with
    | None => (Raised DBAPIError, c)
    | Some k =>
        if bool_decide (Exists (fun r => Row.id r = i) (work c))
           || bool_decide (Exists (collides (UserCreate.email v) (UserCreate.user v)) (work c))
        then (Raised IntegrityError, mkConn (work c) i)
        else (Returned i, mkConn (work c ++ [Row.of_values k v]) i)
    end.

#[global] Instance UserCreate_eq_dec : EqDecision UserCreate.t.
Proof. solve_decision. Defined.

(** Row [r] is one that UPDATE ... WHERE id = i writes when the values are
    to be [v]: the ORM puts in the SET list the columns whose value
    changed, and emits nothing for a row none of whose columns changed. *)
Definition written (i : Z) (v : UserCreate.t) (r : Row.t) : Prop :=
  Row.id r = i /\ Row.values r <> v.

#[global] Instance written_dec i v r : Decision (written i v r).
Proof. unfold written. apply _. Defined.

(** A column of [r] is set to a value with a NUL character. *)
Definition sets_nul (v : UserCreate.t) (r : Row.t) : bool :=
  (negb (bool_decide (Row.name r = UserCreate.name v)) && has_nul (UserCreate.name v))
  || (negb (bool_decide (Row.email r = UserCreate.email v)) && has_nul (UserCreate.email v))
  || (negb (bool_decide (Row.user r = UserCreate.user v)) && has_nul (UserCreate.user v))
  || (negb (bool_decide (Row.password r = UserCreate.password v))
      && has_nul (UserCreate.password v)).

(** The table after the update: PostgreSQL writes a new version of each
    row it updates, which a scan then meets after the rows that were not
    written. *)
Definition updated (i : Z) (v : UserCreate.t) (rs : list Row.t) : list Row.t :=
  filter (fun r => ¬ written i v r) rs ++ (Row.with_values v <$> filter (written i v) rs).
Arguments updated : simpl never.

(** The row as the update leaves it. *)
Definition rewritten (i : Z) (v : UserCreate.t) (r : Row.t) : Row.t :=
  if decide (written i v r) then Row.with_values v r else r.

(** UPDATE users SET <the changed columns> WHERE id = i, as the flush emits
    it for an instance whose attributes were assigned.  A new value with a
    NUL character is refused; the statement fails when a row with another
    id collides (on a table that meets its constraints this cannot happen
    through a column that did not change); the primary key leaves at most
    one row to write. *)
Definition sql_update (i : Z) (v : UserCreate.t) (c : Conn) : outcome unit * Conn :=
  if bool_decide (Exists (fun r => Row.id r = i /\ sets_nul v r) (work c))
  then (Raised DBAPIError, c)
  else if bool_decide (Exists (fun r => Row.id r <> i /\
                                        collides (UserCreate.email v) (UserCreate.user v) r)
                              (work c))
  then (Raised IntegrityError, c)
  else (Returned tt, mkConn (updated i v (work c)) (seq_value c)).

(** DELETE FROM users WHERE id = i. *)
Definition sql_delete (i : Z) (c : Conn) : outcome unit * Conn :=
  (Returned tt, mkConn (filter (fun r => Row.id r <> i) (work c)) (seq_value c)).

(** select(UserDB) with its optional clauses. *)
Record Select := mkSelect {
  where_id : option Z;
  offset_clause : option Z;
  limit_clause : option Z;
}.

Module Query.
(** select(UserDB) *)
Definition select : Select := mkSelect None None None.
(** .filter(UserDB.id == i) *)
Definition filter_id (i : Z) (q : Select) : Select :=
  mkSelect (Some i) (offset_clause q) (limit_clause q).
(** .offset(n) *)
Definition offset (n : Z) (q : Select) : Select :=
  mkSelect (where_id q) (Some n) (limit_clause q).
(** .limit(n) *)
Definition limit (n : Z) (q : Select) : Select :=
  mkSelect (where_id q) (offset_clause q) (Some n).
End Query.

(** The driver refuses a parameter outside the range of its type: 32 bits
    for the id of the WHERE clause, 64 bits for LIMIT and OFFSET; the
    engine refuses a negative LIMIT or OFFSET. *)
Definition refused (q : Select) : bool :=
  match where_id q with
  | Some i => negb (bool_decide (in_int32 i))
  | None => false
  end
  || match offset_clause q with
     | Some k => negb (bool_decide (in_int64 k)) || (k <? 0)
     | None => false
     end
  || match limit_clause q with
     | Some n => negb (bool_decide (in_int64 n)) || (n <? 0)
     | None => false
     end.

(** SELECT ... FROM users [WHERE id = i] [LIMIT n] [OFFSET k].  There is
    no ORDER BY, so the rows come in scan order. *)
Definition sql_select (q : Select) (rs : list Row.t) : outcome (list Row.t) :=
  if refused q then Raised DBAPIError
  else
    let matching :=
      match where_id q with
      | Some i => filter (fun r => Row.id r = i) rs
      | None => rs
      end in
    let skipped :=
      match offset_clause q with
      | Some k => drop (Z.to_nat k) matching
      | None => matching
      end in
    Returned (match limit_clause q with
              | Some n => take (Z.to_nat n) skipped
              | None => skipped
              end).

(** ** The session: SQLAlchemy's unit of work *)

Inductive InstanceState := Transient | Pending | Persistent | Deleted | Detached.

(** An instance the session knows: the Python object, where it stands in
    its life cycle and whether an attribute was assigned since it was
    loaded or flushed. *)
Record Instance := mkInstance {
  obj : UserDB.t;
  state : InstanceState;
  modified : bool;
}.

Inductive Transaction :=
| NoTransaction
| Active (snapshot : list Row.t)   (* the rows as the open transaction sees them *)
| Failed.                          (* a statement failed; only a rollback is accepted *)

(** The session of one request.  [engine] is the committed database, which
    only COMMIT changes (the sequence apart); [heap] holds the Python
    objects of the request, a reference being an index into it. *)
Record AsyncSession := mkSession {
  engine : Database;
  transaction : Transaction;
  heap : list Instance;
}.

Definition ref := nat.

(** AsyncSessionLocal(): a new session on the engine. *)
Definition AsyncSessionLocal (db : Database) : AsyncSession :=
  mkSession db NoTransaction [].

(** ** The monad of the handlers: state and exceptions *)

Definition M (A : Type) : Type := AsyncSession -> outcome A * AsyncSession.

Definition ret {A} (a : A) : M A := fun s => (Returned a, s).

Definition bind {A B} (m : M A) (k : A -> M B) : M B :=
  fun s =>
    match m s with
    | (Returned a, s') => k a s'
    | (Raised e, s') => (Raised e, s')
    end.

Definition raise {A} (e : exn) : M A := fun s => (Raised e, s).

(** try: body / except Exception as e: handler e *)
Definition try_except {A} (body : M A) (handler : exn -> M A) : M A :=
  fun s =>
    match body s with
    | (Returned a, s') => (Returned a, s')
    | (Raised e, s') => handler e s'
    end.

Declare Scope handler_scope.
Delimit Scope handler_scope with handler.
Notation "x <- c ;; k" := (bind c (fun x => k))
  (at level 100, c at next level, right associativity) : handler_scope.
Notation "c ;; k" := (bind c (fun _ => k))
  (at level 100, right associativity) : handler_scope.

(** ** Session operations *)

Definition set_heap (h : list Instance) (s : AsyncSession) : AsyncSession :=
  mkSession (engine s) (transaction s) h.

(** The rows the session's transaction sees; a transaction begins on
    first use, from the committed rows. *)
Definition visible (s : AsyncSession) : list Row.t :=
  match transaction s with
  | Active w => w
  | _ => rows (engine s)
  end.

(** UserDB(...): a new object, not yet known to any transaction. *)
Definition new_UserDB (v : UserCreate.t) : M ref :=
  fun s => (Returned (length (heap s)),
            set_heap (heap s ++ [mkInstance (UserDB.init v) Transient false]) s).

(** db.add(x) *)
Definition add (x : ref) : M unit :=
  fun s =>
    (Returned tt,
     set_heap (alter (fun i => match state i with
                               | Transient => mkInstance (obj i) Pending (modified i)
                               | _ => i
                               end) x (heap s)) s).

(** x.attr = v, for the attribute written by [set]. *)
Definition setattr (set : UserDB.t -> UserDB.t) (x : ref) : M unit :=
  fun s =>
    (Returned tt,
     set_heap (alter (fun i => mkInstance (set (obj i)) (state i) true) x (heap s)) s).

(** What the flush emits for one instance. *)
Definition flush_instance (i : Instance) (c : Conn) : outcome Instance * Conn :=
  match state i with
  | Pending =>
      match sql_insert (UserDB.columns (obj i)) c with
      | (Returned k, c') =>
          (Returned (mkInstance (UserDB.with_id k (obj i)) Persistent false), c')
      | (Raised e, c') => (Raised e, c')
      end
  | Persistent =>
      match modified i, UserDB.id (obj i) with
      | true, Some k =>
          match sql_update k (UserDB.columns (obj i)) c with
          | (Returned _, c') => (Returned (mkInstance (obj i) Persistent false), c')
          | (Raised e, c') => (Raised e, c')
          end
      | _, _ => (Returned i, c)
      end
  | Deleted =>
      match UserDB.id (obj i) with
      | Some k =>
          match sql_delete k c with
          | (Returned _, c') => (Returned (mkInstance (obj i) Detached false), c')
          | (Raised e, c') => (Raised e, c')
          end
      | None => (Returned i, c)
      end
  | Transient | Detached => (Returned i, c)
  end.

Fixpoint flush_instances (l : list Instance) (c : Conn) : outcome (list Instance) * Conn :=
  match l with
  | [] => (Returned [], c)
  | i :: l' =>
      match flush_instance i c with
      | (Returned i', c') =>
          match flush_instances l' c' with
          | (Returned l'', c'') => (Returned (i' :: l''), c'')
          | (Raised e, c'') => (Raised e, c'')
          end
      | (Raised e, c') => (Raised e, c')
      end
  end.

(** db.flush(): write the pending changes into the open transaction.  A
    failing statement leaves the transaction failed and nothing of it
    visible; the sequence keeps the values it handed out. *)
Definition flush : M unit :=
  fun s =>
    match transaction s with
    | Failed => (Raised PendingRollbackError, s)
    | _ =>
        match flush_instances (heap s) (mkConn (visible s) (users_id_seq (engine s))) with
        | (Returned h, c) =>
            (Returned tt,
             mkSession (mkDatabase (rows (engine s)) (seq_value c)) (Active (work c)) h)
        | (Raised e, c) =>
            (Raised e,
             mkSession (mkDatabase (rows (engine s)) (seq_value c)) Failed (heap s))
        end
    end.

(** COMMIT: the rows of the transaction become the committed rows. *)
Definition sql_commit : M unit :=
  fun s =>
    match transaction s with
    | Failed => (Raised PendingRollbackError, s)
    | _ => (Returned tt,
            mkSession (mkDatabase (visible s) (users_id_seq (engine s))) NoTransaction (heap s))
    end.

(** db.commit() *)
Definition commit : M unit := (flush ;; sql_commit)%handler.

(** db.rollback(): the transaction is dropped; pending instances leave the
    session, instances marked for deletion are persistent again. *)
Definition rollback : M unit :=
  fun s =>
    (Returned tt,
     mkSession (engine s) NoTransaction
       ((fun i => match state i with
                  | Pending => mkInstance (obj i) Transient (modified i)
                  | Deleted => mkInstance (obj i) Persistent false
                  | _ => mkInstance (obj i) (state i) false
                  end) <$> heap s)).

(** Leaving the [async with] block of get_db: the session is closed, an
    open transaction rolled back, every instance detached. *)
Definition close (s : AsyncSession) : AsyncSession :=
  mkSession (engine s) NoTransaction
    ((fun i => mkInstance (obj i) Detached false) <$> heap s).

(** The instance a row is loaded into. *)
Definition load (r : Row.t) : Instance := mkInstance (UserDB.of_row r) Persistent false.

(** db.execute(q): pending changes are flushed, the statement runs in the
    transaction, and each row of the result becomes a persistent instance.
    The result is the list of these instances, in row order. *)
Definition execute (q : Select) : M (list ref) :=
  (flush ;;
   fun s =>
     match sql_select q (visible s) with
     | Returned rs =>
         (Returned (List.seq (length (heap s)) (length rs)),
          set_heap (heap s ++ (load <$> rs)) s)
     | Raised e => (Raised e, mkSession (engine s) Failed (heap s))
     end)%handler.

(** result.scalars().all() and result.scalars().first() *)
Definition scalars_all (result : list ref) : list ref := result.
Definition scalars_first (result : list ref) : option ref := head result.

(** db.refresh(x): reload the attributes of a persistent instance from
    its row. *)
Definition refresh (x : ref) : M unit :=
  fun s =>
    match heap s !! x with
    | Some i =>
        match state i, UserDB.id (obj i), transaction s with
        | Persistent, Some k, (NoTransaction | Active _) =>
            match sql_select (Query.filter_id k Query.select) (visible s) with
            | Returned (r :: _) =>
                (Returned tt,
                 mkSession (engine s) (Active (visible s))
                   (<[x := load r]> (heap s)))
            | Returned [] => (Raised InvalidRequestError,
                              mkSession (engine s) (Active (visible s)) (heap s))
            | Raised e => (Raised e, mkSession (engine s) Failed (heap s))
            end
        | Persistent, Some k, Failed => (Raised PendingRollbackError, s)
        | _, _, _ => (Raised InvalidRequestError, s)
        end
    | None => (Raised InvalidRequestError, s)
    end.

(** db.delete(x): mark a persistent instance for deletion. *)
Definition delete_ (x : ref) : M unit :=
  fun s =>
    match heap s !! x with
    | Some i =>
        match state i with
        | Persistent =>
            (Returned tt, set_heap (<[x := mkInstance (obj i) Deleted (modified i)]> (heap s)) s)
        | _ => (Raised InvalidRequestError, s)
        end
    | None => (Raised InvalidRequestError, s)
    end.

(** ** The handlers *)

Local Open Scope handler_scope.

Definition create_user (user : UserCreate.t) : M ref :=
  new_user <- new_UserDB user ;;
  add new_user ;;
  try_except
    (commit ;;
     refresh new_user)
    (fun e =>
       rollback ;;
       raise (HTTPException 400 "User or Email already exists")) ;;
  ret new_user.

Definition read_users (skip limit : Z) : M (list ref) :=
  result <- execute (Query.limit limit (Query.offset skip Query.select)) ;;
  ret (scalars_all result).

Definition read_user (user_id : Z) : M ref :=
  result <- execute (Query.filter_id user_id Query.select) ;;
  match scalars_first result with
  | None => raise (HTTPException 404 "User not found")
  | Some user => ret user
  end.

Definition update_user (user_id : Z) (user_update : UserCreate.t) : M ref :=
  result <- execute (Query.filter_id user_id Query.select) ;;
  match scalars_first result with
  | None => raise (HTTPException 404 "User not found")
  | Some db_user =>
      setattr (UserDB.set_name (UserCreate.name user_update)) db_user ;;
      setattr (UserDB.set_email (UserCreate.email user_update)) db_user ;;
      setattr (UserDB.set_user (UserCreate.user user_update)) db_user ;;
      setattr (UserDB.set_password (UserCreate.password user_update)) db_user ;;
      commit ;;
      refresh db_user ;;
      ret db_user
  end.

Definition delete_user (user_id : Z) : M string :=
  result <- execute (Query.filter_id user_id Query.select) ;;
  match scalars_first result with
  | None => raise (HTTPException 404 "User not found")
  | Some db_user =>
      delete_ db_user ;;
      commit ;;
      ret "User deleted successfully"
  end.

Local Close Scope handler_scope.

(** ** The routes *)

(** The JSON bodies the service sends. *)
Inductive Body :=
| JUser (u : UserResponse.t)             (* response_model=UserResponse *)
| JUsers (us : list UserResponse.t)      (* response_model=list[UserResponse] *)
| JMessage (message : string)            (* the dict with the key message *)
| JDetail (detail : string)              (* the body of an HTTPException *)
| ValidationErrors                       (* the request did not validate *)
| InternalServerError.                   (* an exception no handler caught *)

Record Response := mkResponse {
  status_code : Z;
  body : Body;
}.

(** orm_mode: a UserResponse is read off the attributes of the instance;
    an instance without id does not validate. *)
Definition from_orm (o : UserDB.t) : option UserResponse.t :=
  match UserDB.id o with
  | Some i => Some (UserResponse.mk i (UserDB.name o) (UserDB.email o)
                                    (UserDB.user o) (UserDB.password o))
  | None => None
  end.

Definition serialize_user (x : ref) (s : AsyncSession) : option Body :=
  i ← heap s !! x; u ← from_orm (obj i); Some (JUser u).

Definition serialize_users (xs : list ref) (s : AsyncSession) : option Body :=
  us ← mapM (fun x => i ← heap s !! x; from_orm (obj i)) xs; Some (JUsers us).

Definition serialize_message (m : string) (s : AsyncSession) : option Body :=
  Some (JMessage m).

(** A route: the handler runs in the session that Depends(get_db) opens
    and closes around it; what it returns is serialized under the status
    code of the decorator, an HTTPException becomes its own response, any
    other exception a 500.  The result is the response and the database
    the request leaves behind. *)
Definition route {A} (success : Z) (serialize : A -> AsyncSession -> option Body)
    (handler : M A) (db : Database) : Response * Database :=
  match handler (AsyncSessionLocal db) with
  | (result, session) =>
      (match result with
       | Returned a =>
           match serialize a session with
           | Some b => mkResponse success b
           | None => mkResponse 500 InternalServerError
           end
       | Raised (HTTPException code detail) => mkResponse code (JDetail detail)
       | Raised _ => mkResponse 500 InternalServerError
       end,
       engine (close session))
  end.

(** POST /users, status_code=201 *)
Definition post_users (user : UserCreate.t) : Database -> Response * Database :=
  route 201 serialize_user (create_user user).

(** GET /users, with the defaults skip=0 and limit=100 *)
Definition get_users (skip limit : option Z) : Database -> Response * Database :=
  route 200 serialize_users (read_users (default 0 skip) (default 100 limit)).

(** GET /users/{user_id} *)
Definition get_user (user_id : Z) : Database -> Response * Database :=
  route 200 serialize_user (read_user user_id).

(** PUT /users/{user_id} *)
Definition put_user (user_id : Z) (user_update : UserCreate.t) : Database -> Response * Database :=
  route 200 serialize_user (update_user user_id user_update).

(** DELETE /users/{user_id} *)
Definition delete_user_route (user_id : Z) : Database -> Response * Database :=
  route 200 serialize_message (delete_user user_id).

(** ** Requests, and the states the service can reach *)

Inductive Request :=
| Create (user : UserCreate.t)
| List (skip limit : option Z)
| Get (user_id : Z)
| Update (user_id : Z) (user_update : UserCreate.t)
| Delete (user_id : Z).

Definition serve (req : Request) : Database -> Response * Database :=
  match req with
  | Create user => post_users user
  | List skip limit => get_users skip limit
  | Get user_id => get_user user_id
  | Update user_id user_update => put_user user_id user_update
  | Delete user_id => delete_user_route user_id
  end.

(** The database after a sequence of requests, served one after the other. *)
Definition serve_all (reqs : list Request) (db : Database) : Database :=
  foldl (fun d req => snd (serve req d)) db reqs.

(** The table is created empty at startup; every later state comes from
    serving requests. *)
Inductive reachable : Database -> Prop :=
| reachable_startup : reachable empty_database
| reachable_serve req db : reachable db -> reachable (snd (serve req db)).

(** What the declaration of the table promises of every stored state. *)
Record consistent (db : Database) : Prop := mkConsistent {
  ids_from_sequence : Forall (fun r => Row.id r <= users_id_seq db) (rows db);
  primary_key : NoDup (Row.id <$> rows db);
  unique_email : NoDup (Row.email <$> rows db);
  unique_user : NoDup (Row.user <$> rows db);
}.

(** A response outside the 2xx range. *)
Definition failed (r : Response) : Prop := 400 <= status_code r.

(** The User a row is shown as, and the User a payload is shown as once
    it is stored under [i]. *)
Definition to_response (r : Row.t) : UserResponse.t :=
  UserResponse.mk (Row.id r) (Row.name r) (Row.email r) (Row.user r) (Row.password r).

Definition response_of (i : Z) (v : UserCreate.t) : UserResponse.t :=
  UserResponse.mk i (UserCreate.name v) (UserCreate.email v)
                    (UserCreate.user v) (UserCreate.password v).

Definition user_not_found : Response := mkResponse 404 (JDetail "User not found").
Definition conflict : Response := mkResponse 400 (JDetail "User or Email already exists").

(** Some row is stored under [i]. *)
Definition stored (i : Z) (db : Database) : Prop :=
  Exists (fun r => Row.id r = i) (rows db).

(** The payload's email or handle is carried by a stored row. *)
Definition taken (v : UserCreate.t) (db : Database) : Prop :=
  Exists (collides (UserCreate.email v) (UserCreate.user v)) (rows db).

(** The payload's email or handle is carried by a row other than [i]. *)
Definition taken_by_other (i : Z) (v : UserCreate.t) (db : Database) : Prop :=
  Exists (fun r => Row.id r <> i /\ collides (UserCreate.email v) (UserCreate.user v) r)
         (rows db).

(** The scenario of the service's description. *)
Definition ann : UserCreate.t := UserCreate.mk "Ann" "a@x.com" "ann1" "p".
Definition bob : UserCreate.t := UserCreate.mk "Bob" "b@x.com" "bob1" "q".

(** ** The request body of POST /users *)

#[local] Unset Elimination Schemes.
Inductive json :=
| JNull
| JBool (b : bool)
| JNumber (n : Z)
| JString (s : string)
| JArray (items : list json)
| JObject (members : list (string * json)).
#[local] Set Elimination Schemes.

Section Validation.
(** What pydantic makes of a JSON value where the schema says [str]:
    the string itself for a JSON string; what it does with other values
    is left to the versions of the library. *)
Variable validate_str : json -> option string.

(** The body, a JSON object, validated against UserCreate: the four
    declared fields are read, any other member is ignored. *)
Definition parse_UserCreate (body : gmap string json) : option UserCreate.t :=
  name ← body !! "name" ≫= validate_str;
  email ← body !! "email" ≫= validate_str;
  user ← body !! "user" ≫= validate_str;
  password ← body !! "password" ≫= validate_str;
  Some (UserCreate.mk name email user password).

(** POST /users from the body as the client sent it. *)
Definition post_users_body (body : gmap string json) (db : Database) : Response * Database :=
  match parse_UserCreate body with
  | Some user => post_users user db
  | None => (mkResponse 422 ValidationErrors, db)
  end.
End Validation.

(** The validation that accepts JSON strings only. *)
Definition strict_str (j : json) : option string :=
  match j with JString s => Some s | _ => None end.

(** ** The properties under study, as predicates *)

(** Every stored id was handed out by the sequence. *)
Definition ids_issued (db : Database) : Prop :=
  Forall (fun r => Row.id r <= users_id_seq db) (rows db).

(** The request writes an email or a handle that another row carries. *)
Definition violates_uniqueness (req : Request) (db : Database) : Prop :=
  match req with
  | Create user => taken user db
  | Update user_id user_update => taken_by_other user_id user_update db
  | _ => False
  end.



(** The session of a request when its handler has returned or raised,
    before get_db closes it. *)
Definition session_of (req : Request) (db : Database) : AsyncSession :=
  match req with
  | Create user => snd (create_user user (AsyncSessionLocal db))
  | List skip limit =>
      snd (read_users (default 0 skip) (default 100 limit) (AsyncSessionLocal db))
  | Get user_id => snd (read_user user_id (AsyncSessionLocal db))
  | Update user_id user_update => snd (update_user user_id user_update (AsyncSessionLocal db))
  | Delete user_id => snd (delete_user user_id (AsyncSessionLocal db))
  end.



(** Ann and Bob, created in this order on the empty table. *)
Definition two_users : Database := serve_all [Create ann; Create bob] empty_database.

(** Bob's payload with Ann's email. *)
Definition bob_as_ann : UserCreate.t := UserCreate.mk "Bob" "a@x.com" "bob1" "q".


(** A body that carries an id next to the four fields. *)
Definition ann_body_with_id : gmap string json :=
  <["id" := JNumber 999]>
    (<["name" := JString "Ann"]>
       (<["email" := JString "a@x.com"]>
          (<["user" := JString "ann1"]>
             (<["password" := JString "p"]> ∅)))).

(** ** Configuration *)

(** os.getenv(key, default): the value of the variable when it is set,
    the default when it is not. *)
Definition getenv (environ : gmap string string) (key default : string) : string :=
  match environ !! key with
  | Some value => value
  | None => default
  end.

Definition DB_USER (environ : gmap string string) : string :=
  getenv environ "DB_USER" "user_db".
Definition DB_PASSWORD (environ : gmap string string) : string :=
  getenv environ "DB_PASSWORD" "password_db".
Definition DB_HOST (environ : gmap string string) : string :=
  getenv environ "DB_HOST" "db".
Definition DB_NAME (environ : gmap string string) : string :=
  getenv environ "DB_NAME" "users_db".

(** The f-string of DATABASE_URL: the four values are pasted in as they
    are. *)
Definition DATABASE_URL (environ : gmap string string) : string :=
  ("postgresql+asyncpg://" +:+ DB_USER environ +:+ ":" +:+ DB_PASSWORD environ
   +:+ "@" +:+ DB_HOST environ +:+ ":5432/" +:+ DB_NAME environ)%stdpp.

(** ** The request body of PUT /users/{user_id} *)

(** update_user takes the same schema as create_user; the id comes from
    the path. *)
Definition put_user_body (validate_str : json -> option string) (user_id : Z)
    (body : gmap string json) (db : Database) : Response * Database :=
  match parse_UserCreate validate_str body with
  | Some user_update => put_user user_id user_update db
  | None => (mkResponse 422 ValidationErrors, db)
  end.

(** The users a response lists. *)
Definition listed (r : Response) : list UserResponse.t :=
  match body r with
  | JUsers us => us
  | _ => []
  end.

(** The status codes a request can be answered with. *)
Definition status_codes (req : Request) : list Z :=
  match req with
  | Create _ => [201; 400]
  | List _ _ => [200; 500]
  | Get _ => [200; 404; 500]
  | Update _ _ => [200; 404; 500]
  | Delete _ => [200; 404; 500]
  end.

(** The rows a request adds to the table (negative: removes), read off
    its response. *)
Definition rows_added (req : Request) (r : Response) : Z :=
  match req with
  | Create _ => if bool_decide (status_code r = 201) then 1 else 0
  | Delete _ => if bool_decide (status_code r = 200) then -1 else 0
  | _ => 0
  end.

(** * Properties *)

(** ** The scenario of the service's description *)

Example post_ann :
  post_users ann empty_database =
  (mkResponse 201 (JUser (UserResponse.mk 1 "Ann" "a@x.com" "ann1" "p")),
   mkDatabase [Row.make 1 "Ann" "a@x.com" "ann1" "p"] 1).
Proof. vm_compute. reflexivity. Qed.

Example get_ann :
  fst (get_user 1 (snd (post_users ann empty_database))) =
  mkResponse 200 (JUser (UserResponse.mk 1 "Ann" "a@x.com" "ann1" "p")).
Proof. vm_compute. reflexivity. Qed.

Example delete_ann :
  delete_user_route 1 (snd (post_users ann empty_database)) =
  (mkResponse 200 (JMessage "User deleted successfully"), mkDatabase [] 1).
Proof. vm_compute. reflexivity. Qed.

Example get_ann_deleted :
  fst (get_user 1 (serve_all [Create ann; Delete 1] empty_database)) = user_not_found.
Proof. vm_compute. reflexivity. Qed.

(** An updated row is scanned after the rows that were not written. *)
Example put_ann_moves :
  Row.name <$> rows (snd (put_user 1 (UserCreate.mk "Robert" "r@x.com" "rob" "z") two_users)) =
  ["Bob"; "Robert"].
Proof. vm_compute. reflexivity. Qed.

(** ** The ranges *)

Lemma int32_of_Z_in z :
  in_int32 z -> exists k, int32_of_Z z = Some k /\ proj1_sig k = z.
Proof.
  intros H. unfold int32_of_Z.
  destruct (is_true_dec _) as [H'|H']; [by eexists|].
  destruct H'. by apply bool_decide_pack.
Qed.

Lemma int32_of_Z_out z : ¬ in_int32 z -> int32_of_Z z = None.
Proof.
  intros H. unfold int32_of_Z.
  destruct (is_true_dec _) as [H'|H']; [|done].
  destruct H. exact (bool_decide_unpack _ H').
Qed.

Lemma int32_of_Z_Some z k : int32_of_Z z = Some k -> proj1_sig k = z /\ in_int32 z.
Proof.
  unfold int32_of_Z. destruct (is_true_dec _) as [H'|H']; [|done].
  intros [= <-]. split; [done|]. exact (bool_decide_unpack _ H').
Qed.

Lemma row_id_in_int32 r : in_int32 (Row.id r).
Proof. apply (proj2_dsig (Row.id32 r)). Qed.

Lemma row_eq r r' : Row.id r = Row.id r' -> Row.values r = Row.values r' -> r = r'.
Proof.
  destruct r as [k ? ? ? ?], r' as [k' ? ? ? ?]. unfold Row.id, Row.values. cbn.
  intros Hk%dsig_eq [= -> -> -> ->]. by rewrite Hk.
Qed.

Lemma to_response_of r i v :
  Row.id r = i -> Row.values r = v -> to_response r = response_of i v.
Proof. intros <- <-. by destruct r. Qed.

Lemma stored_in_int32 i db : stored i db -> in_int32 i.
Proof. intros [r [_ <-]]%Exists_exists. apply row_id_in_int32. Qed.

(** ** The statements *)

Lemma database_eta db : mkDatabase (rows db) (users_id_seq db) = db.
Proof. by destruct db. Qed.

Lemma filter_id_fresh i (rs : list Row.t) :
  ¬ Exists (fun r => Row.id r = i) rs ->
  filter (fun r => Row.id r = i) rs = [].
Proof.
  intros H. induction rs as [|r rs IH]; [done|].
  rewrite filter_cons. case_decide as E.
  - destruct H. by left.
  - apply IH. intros ?. apply H. by right.
Qed.

Lemma filter_id_head i (rs : list Row.t) r rest :
  filter (fun r => Row.id r = i) rs = r :: rest -> Row.id r = i.
Proof.
  intros H. assert (r ∈ filter (fun r => Row.id r = i) rs) as Hin by (rewrite H; left).
  by apply list_elem_of_filter in Hin as [? _].
Qed.

Lemma filter_id_nil i (rs : list Row.t) :
  filter (fun r => Row.id r = i) rs = [] <-> ¬ Exists (fun r => Row.id r = i) rs.
Proof.
  split.
  - intros H [r [Hr Hi]]%Exists_exists.
    assert (r ∈ filter (fun r => Row.id r = i) rs) as Hin
      by by apply list_elem_of_filter.
    rewrite H in Hin. by apply not_elem_of_nil in Hin.
  - apply filter_id_fresh.
Qed.

Lemma filter_id_stored i db :
  filter (fun r => Row.id r = i) (rows db) = [] <-> ¬ stored i db.
Proof. apply filter_id_nil. Qed.

Lemma with_values_id v r : Row.id (Row.with_values v r) = Row.id r.
Proof. done. Qed.

Lemma with_values_values v r : Row.values (Row.with_values v r) = v.
Proof. by destruct v. Qed.

Lemma elem_of_updated i v (rs : list Row.t) r :
  r ∈ updated i v rs <->
  (r ∈ rs /\ ¬ written i v r) \/ (exists r', r = Row.with_values v r' /\ r' ∈ rs /\ written i v r').
Proof.
  unfold updated. rewrite elem_of_app, list_elem_of_filter, list_elem_of_fmap.
  split.
  - intros [[Hn Hr]|[r' [-> [Hw Hr']%list_elem_of_filter]]]; [left|right]; eauto.
  - intros [[Hr Hn]|[r' (-> & Hr' & Hw)]]; [left|right]; [done|].
    exists r'. split; [done|]. by apply list_elem_of_filter.
Qed.

(** After the update every row of the id carries the new values, and the
    id still has a row when it had one. *)
Lemma updated_target i v (rs : list Row.t) r :
  r ∈ updated i v rs -> Row.id r = i -> Row.values r = v.
Proof.
  intros [[Hr Hn]|[r' [-> [Hr' Hw]]]]%elem_of_updated Hi.
  - destruct (decide (Row.values r = v)); [done|]. by destruct Hn.
  - apply with_values_values.
Qed.

Lemma updated_stored i v (rs : list Row.t) j :
  Exists (fun r => Row.id r = j) (updated i v rs) <-> Exists (fun r => Row.id r = j) rs.
Proof.
  rewrite !Exists_exists. split.
  - intros [r [[[Hr Hn]|[r' [-> [Hr' Hw]]]]%elem_of_updated Hj]]; eauto.
  - intros [r [Hr Hj]]. destruct (decide (written i v r)) as [Hw|Hw].
    + exists (Row.with_values v r). split; [|done]. apply elem_of_updated. eauto.
    + exists r. split; [|done]. apply elem_of_updated. eauto.
Qed.

Lemma updated_head i v (rs : list Row.t) :
  Exists (fun r => Row.id r = i) rs ->
  exists r rest,
    filter (fun r => Row.id r = i) (updated i v rs) = r :: rest /\
    to_response r = response_of i v.
Proof.
  intros H%(updated_stored i v). destruct (filter _ _) as [|r rest] eqn:Hf.
  { by apply filter_id_nil in Hf. }
  exists r, rest. split; [done|].
  assert (r ∈ filter (fun r => Row.id r = i) (updated i v rs)) as Hin by (rewrite Hf; left).
  apply list_elem_of_filter in Hin as [Hi Hin].
  apply to_response_of; [done|]. by eapply updated_target.
Qed.

(** ** The session *)

(** Instances that were loaded and not touched give the flush nothing to
    write. *)
Lemma flush_loaded rs c :
  flush_instances (load <$> rs) c = (Returned (load <$> rs), c).
Proof. induction rs as [|r rs IH]; cbn; [done|]. by rewrite IH. Qed.

(** After the four assignments of update_user the instance carries the
    payload. *)
Lemma values_assigned v o :
  UserDB.columns
    (UserDB.set_password (UserCreate.password v)
       (UserDB.set_user (UserCreate.user v)
          (UserDB.set_email (UserCreate.email v)
             (UserDB.set_name (UserCreate.name v) o)))) = v.
Proof. by destruct v. Qed.

Lemma columns_init v : UserDB.columns (UserDB.init v) = v.
Proof. by destruct v. Qed.

(** The instances a query loaded serialize to the rows it returned. *)
Lemma serialize_loaded (pre : list Instance) (rs : list Row.t) :
  mapM (fun x => i ← (pre ++ (load <$> rs)) !! x; from_orm (obj i))
       (seq (length pre) (length rs)) = Some (to_response <$> rs).
Proof.
  revert pre. induction rs as [|r rs IH]; intros pre; [done|].
  cbn [fmap list_fmap length seq mapM].
  rewrite (list_lookup_middle pre _ (load r) (length pre)) by done. cbn.
  specialize (IH (pre ++ [load r])).
  rewrite <- app_assoc, length_app, Nat.add_1_r in IH. cbn in IH.
  by rewrite IH.
Qed.

(** ** What each route computes *)

Lemma post_users_eq v db :
  post_users v db =
  if nul_in v then (conflict, db)
  else
    let i := users_id_seq db + 1 in
    match int32_of_Z i with
    | None => (conflict, db)
    | Some k =>
        if bool_decide (stored i db) || bool_decide (taken v db)
        then (conflict, mkDatabase (rows db) i)
        else (mkResponse 201 (JUser (response_of i v)),
              mkDatabase (rows db ++ [Row.of_values k v]) i)
    end.
Proof.
  destruct db as [rs n].
  unfold post_users, route, create_user, commit, try_except, bind, flush, new_UserDB, add,
    AsyncSessionLocal, stored, taken.
  cbn. unfold sql_insert. cbn.
  rewrite !columns_init.
  destruct (nul_in v); cbn; [done|].
  destruct (int32_of_Z (n + 1)) as [k|] eqn:Hk; cbn; [|done].
  apply int32_of_Z_Some in Hk as [Hk Hr].
  case_bool_decide as Hpk; cbn; [done|].
  case_bool_decide as Hu; cbn; [done|].
  unfold refresh. cbn. unfold sql_select, refused; cbn.
  rewrite bool_decide_true by done. cbn.
  rewrite filter_app, filter_id_fresh by done. cbn.
  rewrite decide_True by done. cbn.
  unfold to_response, response_of, Row.id. cbn. by rewrite Hk.
Qed.

Lemma get_users_eq skip limit db :
  get_users skip limit db =
  (if refused (Query.limit (default 100 limit) (Query.offset (default 0 skip) Query.select))
   then mkResponse 500 InternalServerError
   else mkResponse 200
          (JUsers (to_response <$>
                     take (Z.to_nat (default 100 limit))
                          (drop (Z.to_nat (default 0 skip)) (rows db)))), db).
Proof.
  destruct db as [rs n].
  unfold get_users, route, read_users, execute, bind, flush, AsyncSessionLocal. cbn.
  unfold sql_select. destruct (refused _); cbn; [done|].
  unfold serialize_users, scalars_all. cbn.
  pose proof (serialize_loaded [] (take (Z.to_nat (default 100 limit))
    (drop (Z.to_nat (default 0 skip)) rs))) as H.
  cbn in H. unfold ref. by rewrite H.
Qed.

Lemma refused_filter_id i :
  refused (Query.filter_id i Query.select) = negb (bool_decide (in_int32 i)).
Proof. unfold refused. cbn. by rewrite !orb_false_r. Qed.

Lemma get_user_eq user_id db :
  get_user user_id db =
  (if bool_decide (in_int32 user_id) then
     match filter (fun r => Row.id r = user_id) (rows db) with
     | [] => user_not_found
     | r :: _ => mkResponse 200 (JUser (to_response r))
     end
   else mkResponse 500 InternalServerError, db).
Proof.
  destruct db as [rs n].
  unfold get_user, route, read_user, execute, bind, flush, AsyncSessionLocal. cbn.
  unfold sql_select. rewrite refused_filter_id.
  case_bool_decide; cbn; [|done].
  by destruct (filter _ rs) as [|r rest].
Qed.

Lemma put_user_eq user_id v db :
  put_user user_id v db =
  if bool_decide (in_int32 user_id) then
    match filter (fun r => Row.id r = user_id) (rows db) with
    | [] => (user_not_found, db)
    | _ :: _ =>
        if bool_decide (Exists (fun r => Row.id r = user_id /\ sets_nul v r) (rows db))
           || bool_decide (taken_by_other user_id v db)
        then (mkResponse 500 InternalServerError, db)
        else (mkResponse 200 (JUser (response_of user_id v)),
              mkDatabase (updated user_id v (rows db)) (users_id_seq db))
    end
  else (mkResponse 500 InternalServerError, db).
Proof.
  destruct db as [rs n].
  unfold put_user, route, update_user, execute, bind, flush, AsyncSessionLocal, taken_by_other.
  cbn. unfold sql_select at 1. rewrite refused_filter_id.
  case_bool_decide as Hr; cbn; [|done].
  destruct (filter _ rs) as [|r rest] eqn:Hf; [done|].
  apply filter_id_head in Hf as Hid.
  cbn. unfold commit, bind, flush. cbn.
  unfold sql_update. cbn. rewrite Hid, values_assigned.
  case_bool_decide as Hn; cbn; [done|].
  case_bool_decide as Hu; cbn; [done|].
  rewrite flush_loaded. cbn.
  unfold refresh. cbn. unfold sql_select. rewrite Hid, refused_filter_id.
  rewrite bool_decide_true by done. cbn.
  destruct (updated_head user_id v rs) as (r' & rest' & -> & Hresp).
  { apply dec_stable. intros Hne%filter_id_nil. by rewrite Hne in Hf. }
  cbn. unfold serialize_user. cbn. by rewrite <- Hresp.
Qed.

Lemma delete_user_route_eq user_id db :
  delete_user_route user_id db =
  if bool_decide (in_int32 user_id) then
    match filter (fun r => Row.id r = user_id) (rows db) with
    | [] => (user_not_found, db)
    | _ :: _ =>
        (mkResponse 200 (JMessage "User deleted successfully"),
         mkDatabase (filter (fun r => Row.id r <> user_id) (rows db)) (users_id_seq db))
    end
  else (mkResponse 500 InternalServerError, db).
Proof.
  destruct db as [rs n].
  unfold delete_user_route, route, delete_user, execute, bind, flush, AsyncSessionLocal. cbn.
  unfold sql_select. rewrite refused_filter_id.
  case_bool_decide as Hr; cbn; [|done].
  destruct (filter _ rs) as [|r rest] eqn:Hf; [done|].
  apply filter_id_head in Hf as Hid.
  cbn. unfold commit, bind, flush. cbn.
  rewrite flush_loaded. cbn. by rewrite Hid.
Qed.

(** ** The constraints of the table hold in every reachable state *)

Lemma rewritten_id i v r : Row.id (rewritten i v r) = Row.id r.
Proof. unfold rewritten. by case_decide. Qed.

Lemma rewritten_others i v (rs : list Row.t) :
  Forall (fun r => Row.id r <> i) rs -> rewritten i v <$> rs = rs.
Proof.
  induction 1 as [|r rs Hr _ IH]; [done|].
  cbn [fmap list_fmap]. unfold rewritten at 1.
  rewrite decide_False by (by intros [? _]). f_equal. apply IH.
Qed.

(** The update leaves the rows of the table rewritten, in another
    order. *)
Lemma updated_perm i v (rs : list Row.t) : updated i v rs ≡ₚ rewritten i v <$> rs.
Proof.
  unfold updated. induction rs as [|r rs IH]; [done|].
  cbn [fmap list_fmap]. rewrite !filter_cons.
  destruct (decide (written i v r)) as [Hw|Hw].
  - replace (rewritten i v r) with (Row.with_values v r)
      by (unfold rewritten; by rewrite decide_True).
    rewrite decide_False by tauto. cbn [fmap list_fmap].
    rewrite <- Permutation_middle. by apply perm_skip.
  - replace (rewritten i v r) with r by (unfold rewritten; by rewrite decide_False).
    rewrite decide_True by done. cbn. by apply perm_skip.
Qed.

Lemma not_elem_of_ids i (rs : list Row.t) :
  i ∉ Row.id <$> rs -> Forall (fun r => Row.id r <> i) rs.
Proof.
  intros H. apply Forall_forall. intros r Hr E. apply H.
  apply list_elem_of_fmap. eauto.
Qed.

Section Columns.
Context {B : Type} (column : Row.t -> B).

Lemma NoDup_column_filter (P : Row.t -> Prop) `{!forall r, Decision (P r)} rs :
  NoDup (column <$> rs) -> NoDup (column <$> filter P rs).
Proof.
  induction rs as [|r rs IH]; [done|].
  cbn [fmap list_fmap]. rewrite filter_cons. intros [Hr Hrs]%NoDup_cons.
  case_decide; [|by auto].
  cbn [fmap list_fmap]. apply NoDup_cons. split; [|by auto].
  intros [r' [E Hin]]%list_elem_of_fmap. apply Hr.
  apply list_elem_of_filter in Hin as [_ Hin].
  apply list_elem_of_fmap. eauto.
Qed.

Lemma NoDup_column_rewritten i v (new : B) rs :
  (forall r, column (Row.with_values v r) = new) ->
  NoDup (Row.id <$> rs) ->
  NoDup (column <$> rs) ->
  Forall (fun r => Row.id r <> i -> column r <> new) rs ->
  NoDup (column <$> (rewritten i v <$> rs)).
Proof.
  intros Hnew. induction rs as [|r rs IH]; [done|].
  cbn [fmap list_fmap].
  intros [Hid Hids]%NoDup_cons [Hc Hcs]%NoDup_cons [Hr Hrs]%Forall_cons.
  apply NoDup_cons. split; [|by auto].
  rewrite Forall_forall in Hrs.
  unfold rewritten at 1. case_decide as E.
  - destruct E as [<- _]. rewrite rewritten_others by by apply not_elem_of_ids.
    rewrite Hnew. intros [r' [E' Hin]]%list_elem_of_fmap.
    apply (Hrs r' Hin); [|done].
    intros E. apply Hid. apply list_elem_of_fmap. eauto.
  - intros [r'' [E' Hin]]%list_elem_of_fmap.
    apply list_elem_of_fmap in Hin as [r' [-> Hin]].
    unfold rewritten in E'. case_decide as E''.
    + rewrite Hnew in E'. destruct E'' as [E'' _].
      destruct (decide (Row.id r = i)) as [Hi|Hi]; [|by apply Hr].
      apply Hid. apply list_elem_of_fmap. exists r'. split; [congruence|done].
    + apply Hc. apply list_elem_of_fmap. eauto.
Qed.

Lemma NoDup_column_updated i v (new : B) rs :
  (forall r, column (Row.with_values v r) = new) ->
  NoDup (Row.id <$> rs) ->
  NoDup (column <$> rs) ->
  Forall (fun r => Row.id r <> i -> column r <> new) rs ->
  NoDup (column <$> updated i v rs).
Proof.
  intros. rewrite (updated_perm i v rs). by eapply NoDup_column_rewritten.
Qed.

Lemma NoDup_column_inj (rs : list Row.t) r r' :
  NoDup (column <$> rs) -> r ∈ rs -> r' ∈ rs -> column r = column r' -> r = r'.
Proof.
  intros Hnd [a Ha]%list_elem_of_lookup [b Hb]%list_elem_of_lookup E.
  assert (a = b) as ->.
  { apply (NoDup_lookup (column <$> rs) a b (column r)); [done|..];
      rewrite list_lookup_fmap; [by rewrite Ha | by rewrite Hb, E]. }
  congruence.
Qed.
End Columns.

Lemma ids_updated i v (rs : list Row.t) : Row.id <$> updated i v rs ≡ₚ Row.id <$> rs.
Proof.
  rewrite (updated_perm i v rs), <- list_fmap_compose.
  erewrite list_fmap_ext; [done|]. intros ? r _. apply rewritten_id.
Qed.

Lemma consistent_startup : consistent empty_database.
Proof. split; cbn; constructor. Qed.

Lemma post_users_consistent v db :
  consistent db -> consistent (snd (post_users v db)).
Proof.
  intros [Hseq Hid He Hu]. rewrite post_users_eq.
  destruct (nul_in v); [by split|]. cbn zeta.
  destruct (int32_of_Z _) as [k|] eqn:Hk; [|by split].
  apply int32_of_Z_Some in Hk as [Hk _].
  assert (Forall (fun r => Row.id r <= users_id_seq db + 1) (rows db)) as Hseq'
    by (eapply Forall_impl; [done|]; cbn; intros; lia).
  case_bool_decide as Hpk; cbn [orb]; [by split|].
  case_bool_decide as Ht; [by split|].
  unfold stored, taken in *. rewrite Exists_exists in Hpk, Ht.
  split; cbn [snd rows users_id_seq]; rewrite ?fmap_app; cbn [fmap list_fmap].
  - apply Forall_app. split; [done|]. constructor; [|constructor].
    unfold Row.id. cbn. lia.
  - apply NoDup_app. split_and!; [done| |apply NoDup_singleton].
    intros i [r [-> Hr]]%list_elem_of_fmap E%list_elem_of_singleton.
    apply Hpk. exists r. split; [done|]. rewrite E. unfold Row.id. by cbn.
  - apply NoDup_app. split_and!; [done| |apply NoDup_singleton].
    intros i [r [-> Hr]]%list_elem_of_fmap E%list_elem_of_singleton.
    apply Ht. exists r. split; [done|]. by left.
  - apply NoDup_app. split_and!; [done| |apply NoDup_singleton].
    intros i [r [-> Hr]]%list_elem_of_fmap E%list_elem_of_singleton.
    apply Ht. exists r. split; [done|]. by right.
Qed.

Lemma put_user_consistent i v db :
  consistent db -> consistent (snd (put_user i v db)).
Proof.
  intros [Hseq Hid He Hu]. rewrite put_user_eq.
  case_bool_decide; [|by split].
  destruct (filter _ _); [by split|].
  case_bool_decide as Hn; cbn [orb]; [by split|].
  case_bool_decide as Ht; [by split|].
  unfold taken_by_other in Ht. rewrite Exists_exists in Ht.
  assert (forall r, r ∈ rows db ->
            ¬ (Row.id r <> i /\ collides (UserCreate.email v) (UserCreate.user v) r)) as Ht'
    by (intros r Hr HP; apply Ht; eauto).
  clear Ht. rename Ht' into Ht.
  split; cbn [snd rows users_id_seq].
  - apply Forall_forall.
    intros r [[Hr _]|[r' (-> & Hr' & _)]]%elem_of_updated;
      rewrite Forall_forall in Hseq; [auto|]. rewrite with_values_id. auto.
  - by rewrite ids_updated.
  - apply (NoDup_column_updated Row.email i v (UserCreate.email v)); [done..|].
    apply Forall_forall. intros r Hr Hne E.
    apply (Ht r Hr). split; [done|]. by left.
  - apply (NoDup_column_updated Row.user i v (UserCreate.user v)); [done..|].
    apply Forall_forall. intros r Hr Hne E.
    apply (Ht r Hr). split; [done|]. by right.
Qed.

Lemma delete_user_route_consistent i db :
  consistent db -> consistent (snd (delete_user_route i db)).
Proof.
  intros [Hseq Hid He Hu]. rewrite delete_user_route_eq.
  case_bool_decide; [|by split].
  destruct (filter _ _); [by split|].
  split; cbn [snd rows users_id_seq]; [|by apply NoDup_column_filter..].
  apply Forall_forall. intros r [_ Hr]%list_elem_of_filter.
  rewrite Forall_forall in Hseq. auto.
Qed.

Lemma serve_consistent req db : consistent db -> consistent (snd (serve req db)).
Proof.
  destruct req; cbn [serve].
  - apply post_users_consistent.
  - by rewrite get_users_eq.
  - by rewrite get_user_eq.
  - apply put_user_consistent.
  - apply delete_user_route_consistent.
Qed.

Lemma reachable_consistent db : reachable db -> consistent db.
Proof. induction 1; auto using consistent_startup, serve_consistent. Qed.

Lemma reachable_ids_issued db : reachable db -> ids_issued db.
Proof. intros H. by destruct (reachable_consistent db H). Qed.

Lemma reachable_serve_all reqs db : reachable db -> reachable (serve_all reqs db).
Proof.
  revert db. induction reqs as [|req reqs IH]; intros db H; [done|].
  apply IH. by constructor.
Qed.

(** * The claims *)

(** ** Create *)

Lemma post_users_taken v db :
  taken v db ->
  fst (post_users v db) = conflict /\ rows (snd (post_users v db)) = rows db.
Proof.
  intros H. rewrite post_users_eq. destruct (nul_in v); [done|]. cbn zeta.
  destruct (int32_of_Z _); [|done].
  rewrite (bool_decide_true (taken v db)) by done. by rewrite orb_true_r.
Qed.

Lemma ids_issued_fresh db : ids_issued db -> ¬ stored (users_id_seq db + 1) db.
Proof.
  unfold ids_issued, stored. rewrite Forall_forall, Exists_exists.
  intros H [r [Hr E]]. specialize (H r Hr). lia.
Qed.

Lemma post_users_fresh v db :
  ids_issued db -> ¬ taken v db -> nul_in v = false -> in_int32 (users_id_seq db + 1) ->
  exists k,
    proj1_sig k = users_id_seq db + 1 /\
    post_users v db =
    (mkResponse 201 (JUser (response_of (users_id_seq db + 1) v)),
     mkDatabase (rows db ++ [Row.of_values k v]) (users_id_seq db + 1)).
Proof.
  intros Hseq Ht Hn [k [Hk Hk']]%int32_of_Z_in. exists k. split; [done|].
  rewrite post_users_eq, Hn. cbn zeta. rewrite Hk.
  by rewrite !bool_decide_false by auto using ids_issued_fresh.
Qed.

Lemma post_users_created v db :
  status_code (fst (post_users v db)) = 201 ->
  exists k,
    proj1_sig k = users_id_seq db + 1 /\
    snd (post_users v db) =
    mkDatabase (rows db ++ [Row.of_values k v]) (users_id_seq db + 1).
Proof.
  rewrite post_users_eq. destruct (nul_in v); [done|]. cbn zeta.
  destruct (int32_of_Z _) as [k|] eqn:Hk; [|done].
  apply int32_of_Z_Some in Hk as [Hk _].
  destruct (_ || _); [done|]. by exists k.
Qed.

(** What the handler leaves in its session when the commit fails: the
    except branch has rolled the transaction back, the committed rows are
    those of before, and the new instance is out of the session again. *)
Lemma create_user_rolled_back v db :
  taken v db ->
  exists n,
    create_user v (AsyncSessionLocal db) =
    (Raised (HTTPException 400 "User or Email already exists"),
     mkSession (mkDatabase (rows db) n) NoTransaction
       [mkInstance (UserDB.init v) Transient false]).
Proof.
  intros H. destruct db as [rs n].
  unfold create_user, commit, try_except, bind, flush, new_UserDB, add, AsyncSessionLocal.
  cbn. unfold sql_insert. rewrite columns_init.
  destruct (nul_in v); cbn; [by eexists|].
  destruct (int32_of_Z _); cbn; [|by eexists].
  rewrite (bool_decide_true (Exists (collides _ _) rs)) by done.
  rewrite orb_true_r. by eexists.
Qed.

(** C1: A Create whose email or handle is already stored is answered
    with 400 and the detail "User or Email already exists"; the handler has
    rolled the insert back and the stored rows are those of before.  So of
    two Creates that share the email or the handle, the first one
    succeeding, the second is refused and the table has grown by exactly
    one row. *)
Theorem create_conflict :
  (forall v db,
     taken v db ->
     fst (post_users v db) = conflict /\
     rows (snd (post_users v db)) = rows db /\
     transaction (snd (create_user v (AsyncSessionLocal db))) = NoTransaction /\
     rows (engine (snd (create_user v (AsyncSessionLocal db)))) = rows db) /\
  (forall v1 v2 db,
     status_code (fst (post_users v1 db)) = 201 ->
     UserCreate.email v2 = UserCreate.email v1 \/ UserCreate.user v2 = UserCreate.user v1 ->
     let db1 := snd (post_users v1 db) in
     fst (post_users v2 db1) = conflict /\
     length (rows (snd (post_users v2 db1))) = S (length (rows db))).
Proof.
  split.
  - intros v db H. destruct (post_users_taken v db H) as [-> ->].
    destruct (create_user_rolled_back v db H) as [n ->]. done.
  - intros v1 v2 db H1 H2 db1.
    destruct (post_users_created v1 db H1) as (k & _ & Hdb1). fold db1 in Hdb1.
    assert (taken v2 db1) as Ht.
    { unfold taken. rewrite Hdb1. cbn [rows].
      apply Exists_app. right. constructor. unfold collides. cbn.
      destruct H2; auto. }
    destruct (post_users_taken v2 db1 Ht) as [-> ->]. split; [done|].
    rewrite Hdb1. cbn [rows]. rewrite length_app. cbn. lia.
Qed.

Lemma create_conflict_witness :
  fst (post_users bob_as_ann (snd (post_users ann empty_database))) = conflict /\
  length (rows (snd (post_users bob_as_ann (snd (post_users ann empty_database))))) = 1%nat.
Proof.
  destruct create_conflict as [_ H].
  apply (H ann bob_as_ann empty_database).
  - vm_compute. reflexivity.
  - left. reflexivity.
Defined.




(** ** Failing writes *)

Lemma failed_conflict : failed conflict.
Proof. unfold failed. cbn. lia. Qed.

Lemma failed_not_found : failed user_not_found.
Proof. unfold failed. cbn. lia. Qed.

Lemma failed_500 : failed (mkResponse 500 InternalServerError).
Proof. unfold failed. cbn. lia. Qed.

(** The database a route hands back is the committed one of the session
    that get_db has closed. *)
Lemma route_database {A} success (serialize : A -> AsyncSession -> option Body) handler db :
  snd (route success serialize handler db) =
  engine (close (snd (handler (AsyncSessionLocal db)))).
Proof. unfold route. by destruct (handler _). Qed.

Lemma serve_database req db : snd (serve req db) = engine (close (session_of req db)).
Proof. destruct req; apply route_database. Qed.

(** When create_user raises, its except branch has rolled back. *)
Lemma create_user_raised v s e :
  fst (create_user v s) = Raised e ->
  e = HTTPException 400 "User or Email already exists" /\
  transaction (snd (create_user v s)) = NoTransaction.
Proof.
  unfold create_user, try_except, bind, new_UserDB, add, rollback, raise, ret.
  destruct (commit _) as [[[]|e'] s1]; [|by intros [= <-]].
  destruct (refresh _ s1) as [[[]|e'] s2]; [done|by intros [= <-]].
Qed.

Lemma post_users_failed v db :
  failed (fst (post_users v db)) ->
  exists e, fst (create_user v (AsyncSessionLocal db)) = Raised e.
Proof.
  intros H.
  assert (fst (post_users v db) = conflict) as Hc.
  { revert H. rewrite post_users_eq. destruct (nul_in v); [done|]. cbn zeta.
    destruct (int32_of_Z _); [|done]. destruct (_ || _); [done|].
    unfold failed. cbn. lia. }
  revert Hc. unfold post_users, route.
  destruct (create_user v _) as [[a|e] s]; [|by eexists].
  cbn. by destruct (serialize_user a s).
Qed.

Lemma serve_failed_rows req db :
  failed (fst (serve req db)) -> rows (snd (serve req db)) = rows db.
Proof.
  destruct req as [v|skip limit|i|i v|i]; cbn [serve].
  - rewrite post_users_eq. destruct (nul_in v); [done|]. cbn zeta.
    destruct (int32_of_Z _); [|done]. destruct (_ || _); [done|].
    unfold failed. cbn. lia.
  - by rewrite get_users_eq.
  - by rewrite get_user_eq.
  - rewrite put_user_eq. case_bool_decide; [|done]. destruct (filter _ _); [done|].
    destruct (_ || _); [done|]. unfold failed. cbn. lia.
  - rewrite delete_user_route_eq. case_bool_decide; [|done].
    destruct (filter _ _); [done|]. unfold failed. cbn. lia.
Qed.

(** C3: A request that writes an email or a handle another row carries
    fails, and a request that fails leaves nothing behind: the database the
    route hands back is the committed one of the closed session, that
    session has no transaction left (update_user lets the exception
    through and get_db closes the session, with its transaction, on the
    way out), a statement on it would see the rows of before, and the
    stored rows are exactly those of before.  create_user has rolled back
    itself, in its except branch, before get_db closes the session. *)
Theorem failed_write_changes_nothing req db :
  (violates_uniqueness req db -> failed (fst (serve req db))) /\
  (failed (fst (serve req db)) ->
   snd (serve req db) = engine (close (session_of req db)) /\
   transaction (close (session_of req db)) = NoTransaction /\
   visible (close (session_of req db)) = rows db /\
   rows (snd (serve req db)) = rows db /\
   forall user, req = Create user ->
     transaction (session_of req db) = NoTransaction /\
     visible (session_of req db) = rows db).
Proof.
  split.
  - destruct req as [v|skip limit|i|i v|i]; cbn [serve violates_uniqueness]; try done.
    + intros H. destruct (post_users_taken v db H) as [-> _]. apply failed_conflict.
    + intros H. rewrite put_user_eq. case_bool_decide; [|apply failed_500].
      destruct (filter _ _); [apply failed_not_found|].
      rewrite (bool_decide_true (taken_by_other i v db)) by done.
      rewrite orb_true_r. apply failed_500.
  - intros H. pose proof (serve_failed_rows req db H) as Hrows.
    pose proof (serve_database req db) as Hdb.
    split_and!; [done|done| |done|].
    + unfold visible. cbn [close transaction engine].
      change (engine (session_of req db)) with (engine (close (session_of req db))).
      by rewrite <- Hdb.
    + intros v ->. cbn [serve session_of] in *.
      destruct (post_users_failed v db H) as [e He].
      destruct (create_user_raised v _ e He) as [_ Ht]. split; [done|].
      unfold visible. rewrite Ht.
      change (engine (snd (create_user v (AsyncSessionLocal db))))
        with (engine (close (snd (create_user v (AsyncSessionLocal db))))).
      by rewrite <- Hdb.
Qed.

Lemma failed_write_changes_nothing_witness :
  failed (fst (serve (Update 2 bob_as_ann) two_users)) /\
  transaction (close (session_of (Update 2 bob_as_ann) two_users)) = NoTransaction /\
  rows (snd (serve (Update 2 bob_as_ann) two_users)) = rows two_users /\
  transaction (session_of (Create bob_as_ann) two_users) = NoTransaction.
Proof.
  destruct (failed_write_changes_nothing (Update 2 bob_as_ann) two_users) as [H1 H2].
  destruct (failed_write_changes_nothing (Create bob_as_ann) two_users) as [H1' H2'].
  assert (violates_uniqueness (Update 2 bob_as_ann) two_users) as Hv
    by (apply (bool_decide_unpack _); vm_compute; exact I).
  assert (violates_uniqueness (Create bob_as_ann) two_users) as Hv'
    by (apply (bool_decide_unpack _); vm_compute; exact I).
  destruct (H2 (H1 Hv)) as (_ & Ht & _ & Hr & _).
  destruct (H2' (H1' Hv')) as (_ & _ & _ & _ & Hc).
  split_and!; [exact (H1 Hv) | exact Ht | exact Hr | exact (proj1 (Hc _ eq_refl))].
Defined.

(** ** Update *)


Lemma sets_nul_own r : sets_nul (Row.values r) r = false.
Proof. unfold sets_nul. cbn. by rewrite !bool_decide_true. Qed.


Lemma put_user_out_of_range i v db :
  ¬ in_int32 i -> put_user i v db = (mkResponse 500 InternalServerError, db).
Proof. intros H. by rewrite put_user_eq, bool_decide_false. Qed.

Lemma put_user_stored i v db :
  stored i db ->
  ¬ taken_by_other i v db ->
  ¬ Exists (fun r => Row.id r = i /\ sets_nul v r) (rows db) ->
  put_user i v db =
  (mkResponse 200 (JUser (response_of i v)),
   mkDatabase (updated i v (rows db)) (users_id_seq db)).
Proof.
  intros Hs Ht Hn. rewrite put_user_eq.
  rewrite bool_decide_true by by eapply stored_in_int32.
  destruct (filter _ _) eqn:Hf; [by apply filter_id_stored in Hf|].
  by rewrite !bool_decide_false.
Qed.





Lemma filter_others_updated i v (rs : list Row.t) :
  filter (fun r => Row.id r <> i) (updated i v rs) = filter (fun r => Row.id r <> i) rs.
Proof.
  unfold updated. rewrite filter_app.
  assert (filter (fun r => Row.id r <> i) (Row.with_values v <$> filter (written i v) rs) = [])
    as ->.
  { induction rs as [|r rs IH]; [done|]. rewrite filter_cons. case_decide as Hw; [|done].
    cbn [fmap list_fmap]. rewrite filter_cons, decide_False; [done|].
    rewrite with_values_id. destruct Hw as [Hw _]. by intros ?. }
  rewrite app_nil_r, list_filter_filter. apply list_filter_iff.
  intros r. unfold written. tauto.
Qed.

(** C8: A successful Update(i, ...) leaves every row stored under another
    id as it was, field for field: the rows of the other ids are the same
    rows, in the same order among themselves, and the table keeps its
    length. *)
Theorem update_frame i v db :
  status_code (fst (put_user i v db)) = 200 ->
  length (rows (snd (put_user i v db))) = length (rows db) /\
  filter (fun r => Row.id r <> i) (rows (snd (put_user i v db))) =
    filter (fun r => Row.id r <> i) (rows db) /\
  forall r : Row.t,
    Row.id r <> i -> (r ∈ rows (snd (put_user i v db)) <-> r ∈ rows db).
Proof.
  rewrite put_user_eq. case_bool_decide; [|discriminate].
  destruct (filter _ _); [discriminate|].
  destruct (_ || _); [discriminate|]. intros _. cbn [fst snd rows].
  pose proof (filter_others_updated i v (rows db)) as Hf.
  split_and!; [|done|].
  - by rewrite (updated_perm i v (rows db)), length_fmap.
  - intros r Hr.
    assert (forall l : list Row.t, r ∈ l <-> r ∈ filter (fun r => Row.id r <> i) l) as E
      by (intros l; rewrite list_elem_of_filter; tauto).
    by rewrite (E (updated _ _ _)), (E (rows db)), Hf.
Qed.

Lemma update_frame_witness :
  Row.make 2 "Bob" "b@x.com" "bob1" "q"
    ∈ rows (snd (put_user 1 (UserCreate.mk "Robert" "r@x.com" "rob" "z") two_users)).
Proof.
  assert (status_code (fst (put_user 1 (UserCreate.mk "Robert" "r@x.com" "rob" "z") two_users))
          = 200) as H by (vm_compute; reflexivity).
  destruct (update_frame _ _ _ H) as (_ & _ & Hk).
  apply Hk; [vm_compute; discriminate|]. vm_compute. right. left.
Defined.

(** ** Get *)

Lemma stored_unique i r db :
  NoDup (Row.id <$> rows db) -> r ∈ rows db -> Row.id r = i ->
  filter (fun r => Row.id r = i) (rows db) = [r].
Proof.
  intros Hnd Hr Hi. induction (rows db) as [|r' rs IH]; [by apply not_elem_of_nil in Hr|].
  cbn [fmap list_fmap] in Hnd. apply NoDup_cons in Hnd as [Hr' Hnd].
  rewrite filter_cons. apply elem_of_cons in Hr as [->|Hr].
  - rewrite decide_True by done. f_equal. apply filter_id_fresh.
    rewrite Exists_exists. intros [r'' [Hin E]]. apply Hr'.
    apply list_elem_of_fmap. exists r''. split; [congruence|done].
  - rewrite decide_False; [by apply IH|].
    intros E. apply Hr'. apply list_elem_of_fmap. exists r. split; [congruence|done].
Qed.

(** The claim as first stated fails for an id outside the Integer range:
    no user is stored under 2147483648, and Get is answered with 500, not
    with 404. *)
Lemma get_out_of_range_counterexample :
  ¬ stored 2147483648 two_users /\
  fst (get_user 2147483648 two_users) <> user_not_found /\
  fst (get_user 2147483648 two_users) = mkResponse 500 InternalServerError.
Proof.
  split_and!.
  - apply (bool_decide_unpack _). vm_compute. exact I.
  - vm_compute. discriminate.
  - vm_compute. reflexivity.
Qed.

(** C5 (amended): For an id of the Integer range, Get(i) answers 404 with
    the detail "User not found" exactly when no row is stored under [i];
    for a stored id it answers 200 with a stored row of that id, which
    under the primary key is the one row of that id. *)
Theorem get_user_found_iff i db :
  (in_int32 i -> (fst (get_user i db) = user_not_found <-> ¬ stored i db)) /\
  (stored i db ->
   exists r, r ∈ rows db /\ Row.id r = i /\
             fst (get_user i db) = mkResponse 200 (JUser (to_response r))) /\
  (NoDup (Row.id <$> rows db) ->
   forall r, r ∈ rows db -> Row.id r = i ->
             fst (get_user i db) = mkResponse 200 (JUser (to_response r))).
Proof.
  rewrite get_user_eq. cbn [fst]. split_and!.
  - intros Hr. rewrite bool_decide_true by done.
    rewrite <- filter_id_stored. by destruct (filter _ _).
  - intros Hs. rewrite bool_decide_true by by eapply stored_in_int32.
    destruct (filter _ _) as [|r rest] eqn:Hf; [by apply filter_id_stored in Hf|].
    exists r. split_and!; [|by eapply filter_id_head|done].
    assert (r ∈ filter (fun r => Row.id r = i) (rows db)) as Hin by (rewrite Hf; left).
    by apply list_elem_of_filter in Hin as [_ ?].
  - intros Hnd r Hr Hi. rewrite (stored_unique i r) by done.
    rewrite bool_decide_true; [done|]. subst i. apply row_id_in_int32.
Qed.

Lemma get_user_found_iff_witness :
  fst (get_user 2 two_users) = mkResponse 200 (JUser (response_of 2 bob)) /\
  fst (get_user 999999 two_users) = user_not_found.
Proof.
  destruct (get_user_found_iff 2 two_users) as (_ & _ & H).
  destruct (get_user_found_iff 999999 two_users) as (H' & _ & _).
  split.
  - apply (H : _ -> forall r, _ -> _ -> _ = mkResponse 200 (JUser (to_response r)))
      with (r := Row.make 2 "Bob" "b@x.com" "bob1" "q"); [| |reflexivity].
    + apply (bool_decide_unpack _). vm_compute. exact I.
    + vm_compute. right. left.
  - apply H'; apply (bool_decide_unpack _); vm_compute; exact I.
Defined.

(** ** Delete *)

Lemma delete_user_route_not_stored i db :
  in_int32 i -> ¬ stored i db -> delete_user_route i db = (user_not_found, db).
Proof.
  intros Hr H%filter_id_stored. by rewrite delete_user_route_eq, bool_decide_true, H.
Qed.

Lemma not_stored_filtered i db n :
  ¬ stored i (mkDatabase (filter (fun r => Row.id r <> i) (rows db)) n).
Proof.
  unfold stored. cbn. rewrite Exists_exists.
  by intros [r [[? _]%list_elem_of_filter ?]].
Qed.

(** C6: Delete(i) of a stored id answers with the message "User deleted
    successfully" and leaves the rows of every other id, in their order;
    after it no row is stored under [i], Get(i) answers 404, and so does
    Delete(i), however often it is repeated. *)
Theorem delete_then_gone i db :
  stored i db ->
  let db' := snd (delete_user_route i db) in
  fst (delete_user_route i db) = mkResponse 200 (JMessage "User deleted successfully") /\
  rows db' = filter (fun r => Row.id r <> i) (rows db) /\
  ¬ stored i db' /\
  fst (get_user i db') = user_not_found /\
  forall n : nat,
    delete_user_route i (Nat.iter n (fun d => snd (delete_user_route i d)) db') =
    (user_not_found, db').
Proof.
  intros Hs db'. subst db'. pose proof (stored_in_int32 i db Hs) as Hr.
  rewrite delete_user_route_eq, bool_decide_true by done.
  destruct (filter (fun r => Row.id r = i) _) eqn:Hf; [by apply filter_id_stored in Hf|].
  cbn [fst snd rows].
  pose proof (not_stored_filtered i db (users_id_seq db)) as Hgone.
  split_and!; [done..| |].
  - rewrite get_user_eq, bool_decide_true by done.
    apply filter_id_stored in Hgone. by rewrite Hgone.
  - induction n as [|n IH].
    + by apply delete_user_route_not_stored.
    + rewrite Nat.iter_succ, IH. by apply delete_user_route_not_stored.
Qed.

Lemma delete_then_gone_witness :
  fst (delete_user_route 1 two_users) = mkResponse 200 (JMessage "User deleted successfully") /\
  fst (get_user 1 (snd (delete_user_route 1 two_users))) = user_not_found /\
  fst (delete_user_route 1 (snd (delete_user_route 1 two_users))) = user_not_found.
Proof.
  assert (stored 1 two_users) as Hs by (apply (bool_decide_unpack _); vm_compute; exact I).
  destruct (delete_then_gone 1 two_users Hs) as (H1 & _ & _ & H2 & H3).
  split_and!; [exact H1 | exact H2 |].
  exact (f_equal fst (H3 0%nat)).
Defined.

(** ** List *)

Lemma get_users_page skip limit db :
  0 <= skip < 9223372036854775808 -> 0 <= limit < 9223372036854775808 ->
  get_users (Some skip) (Some limit) db =
  (mkResponse 200
     (JUsers (to_response <$> take (Z.to_nat limit) (drop (Z.to_nat skip) (rows db)))), db).
Proof.
  intros Hs Hl. rewrite get_users_eq. unfold refused. cbn.
  rewrite !bool_decide_true by (unfold in_int64; lia). cbn.
  destruct (Z.ltb_spec skip 0); [lia|]. destruct (Z.ltb_spec limit 0); [lia|]. done.
Qed.





(** ** The body of a Create *)

Lemma parse_ignores_id validate (body : gmap string json) x :
  parse_UserCreate validate (<["id" := x]> body) = parse_UserCreate validate body.
Proof. unfold parse_UserCreate. by rewrite !lookup_insert_ne. Qed.

Lemma post_users_status v db :
  fst (post_users v db) = conflict \/
  fst (post_users v db) = mkResponse 201 (JUser (response_of (users_id_seq db + 1) v)).
Proof.
  rewrite post_users_eq. destruct (nul_in v); [by left|]. cbn zeta.
  destruct (int32_of_Z _); [|by left]. destruct (_ || _); [by left|by right].
Qed.

(** C9: The body of a Create is read through the four fields of
    UserCreate: an id member, whatever its value, changes neither the
    response nor the database, and the id of a 201 response is the next
    value of the sequence. *)
Theorem client_id_ignored validate (body : gmap string json) x db :
  post_users_body validate (<["id" := x]> body) db = post_users_body validate body db /\
  (forall u,
     fst (post_users_body validate (<["id" := x]> body) db) = mkResponse 201 (JUser u) ->
     UserResponse.id u = users_id_seq db + 1).
Proof.
  unfold post_users_body. rewrite parse_ignores_id. split; [done|].
  intros u. destruct (parse_UserCreate validate body) as [v|]; [|discriminate].
  destruct (post_users_status v db) as [-> | ->]; [discriminate|].
  by intros [= <-].
Qed.

Lemma client_id_ignored_witness :
  fst (post_users_body strict_str ann_body_with_id empty_database) =
    mkResponse 201 (JUser (response_of 1 ann)) /\
  UserResponse.id (response_of 1 ann) = 1.
Proof.
  assert (fst (post_users_body strict_str ann_body_with_id empty_database) =
          mkResponse 201 (JUser (response_of 1 ann))) as H by (vm_compute; reflexivity).
  split; [exact H|].
  exact (proj2 (client_id_ignored strict_str _ (JNumber 999) empty_database) _ H).
Defined.

(** ** The reads *)

(** C10: List and Get leave the database as it was, whatever their
    arguments and whatever they answer: the committed state of the session
    is untouched when the handler returns or raises, and the route hands
    back the database it was given. *)
Theorem reads_change_nothing skip limit i db :
  snd (get_users skip limit db) = db /\
  snd (get_user i db) = db /\
  engine (snd (read_users (default 0 skip) (default 100 limit) (AsyncSessionLocal db))) = db /\
  engine (snd (read_user i (AsyncSessionLocal db))) = db.
Proof.
  rewrite get_users_eq, get_user_eq. split_and!; [done..| |]; destruct db as [rs n].
  - unfold read_users, execute, bind, flush, AsyncSessionLocal. cbn.
    by destruct (sql_select _ rs).
  - unfold read_user, execute, bind, flush, AsyncSessionLocal. cbn.
    destruct (sql_select _ rs) as [l|]; [|done]. by destruct l.
Qed.

(** * Further properties of the service *)

(** ** The table *)

(** X1: In every state the service reaches from the empty table, no two
    rows share an id, an email or a handle, and no id is ahead of the
    sequence. *)
Theorem constraints_hold db :
  reachable db ->
  NoDup (Row.id <$> rows db) /\
  NoDup (Row.email <$> rows db) /\
  NoDup (Row.user <$> rows db) /\
  Forall (fun r => Row.id r <= users_id_seq db) (rows db).
Proof.
  intros H. by destruct (reachable_consistent db H).
Qed.

Lemma constraints_hold_witness :
  NoDup (Row.email <$> rows two_users) /\ NoDup (Row.user <$> rows two_users).
Proof.
  assert (reachable two_users) as H
    by (apply reachable_serve, reachable_serve, reachable_startup).
  destruct (constraints_hold two_users H) as (_ & He & Hu & _).
  split; [exact He | exact Hu].
Defined.

Lemma put_user_stored_iff i v db j :
  stored j (snd (put_user i v db)) <-> stored j db.
Proof.
  rewrite put_user_eq. case_bool_decide; [|done]. destruct (filter _ _); [done|].
  destruct (_ || _); [done|]. apply updated_stored.
Qed.

Lemma users_id_seq_serve req db :
  users_id_seq db <= users_id_seq (snd (serve req db)).
Proof.
  destruct req as [v|skip limit|i|i v|i]; cbn [serve].
  - rewrite post_users_eq. destruct (nul_in v); [cbn; lia|]. cbn zeta.
    destruct (int32_of_Z _); [|cbn; lia]. destruct (_ || _); cbn; lia.
  - rewrite get_users_eq. cbn. lia.
  - rewrite get_user_eq. cbn. lia.
  - rewrite put_user_eq. case_bool_decide; [|cbn; lia].
    destruct (filter _ _); [cbn; lia|]. destruct (_ || _); cbn; lia.
  - rewrite delete_user_route_eq. case_bool_decide; [|cbn; lia].
    destruct (filter _ _); cbn; lia.
Qed.

(** An id the sequence has passed and no row carries stays free through
    one request. *)
Lemma retired_serve i req db :
  ids_issued db -> i <= users_id_seq db -> ¬ stored i db ->
  ¬ stored i (snd (serve req db)).
Proof.
  intros Hseq Hi Hfree. destruct req as [v|skip limit|j|j v|j]; cbn [serve].
  - rewrite post_users_eq. destruct (nul_in v); [done|]. cbn zeta.
    destruct (int32_of_Z _) as [k|] eqn:Hk; [|done].
    apply int32_of_Z_Some in Hk as [Hk _]. destruct (_ || _); [done|].
    unfold stored in *. cbn [snd rows]. rewrite Exists_app.
    intros [?|[E|E%Exists_nil]%Exists_cons]; [done| |done].
    unfold Row.id in E. cbn in E. lia.
  - by rewrite get_users_eq.
  - by rewrite get_user_eq.
  - by rewrite put_user_stored_iff.
  - rewrite delete_user_route_eq. case_bool_decide; [|done].
    destruct (filter _ _); [done|].
    unfold stored in *. cbn [snd rows]. rewrite !Exists_exists in *.
    intros [r [[_ Hr]%list_elem_of_filter E]]. eauto.
Qed.

(** X2: An id is never given twice.  Once the sequence has passed an id
    and no row carries it (it was refused, or its row was deleted), no
    sequence of requests brings a row with that id back. *)
Theorem id_never_reused i reqs db :
  consistent db ->
  i <= users_id_seq db ->
  ¬ stored i db ->
  ¬ stored i (serve_all reqs db).
Proof.
  revert db. induction reqs as [|req reqs IH]; intros db Hc Hi Hfree; [done|].
  cbn [serve_all foldl]. fold (serve_all reqs (snd (serve req db))).
  apply IH.
  - by apply serve_consistent.
  - pose proof (users_id_seq_serve req db). lia.
  - apply retired_serve; [by destruct Hc|done..].
Qed.

Lemma id_never_reused_witness :
  ¬ stored 1 (serve_all [Create ann; Create bob_as_ann; Update 2 ann]
                (snd (delete_user_route 1 two_users))).
Proof.
  apply id_never_reused.
  - apply reachable_consistent.
    apply (reachable_serve (Delete 1)), reachable_serve, reachable_serve, reachable_startup.
  - vm_compute. discriminate.
  - apply (bool_decide_unpack _). vm_compute. exact I.
Defined.

(** ** Status codes *)

(** X3: Once its parameters have been read as integers, each request is
    answered with one of these status codes: Create 201 or 400, List 200
    or 500, Get 200, 404 or 500, Update 200, 404 or 500, Delete 200, 404 or
    500; the bodies of Create and Update add the 422 of a body that does
    not validate. *)
Theorem status_code_of_route validate req (body : gmap string json) user_id db :
  status_code (fst (serve req db)) ∈ status_codes req /\
  status_code (fst (post_users_body validate body db)) ∈ [201; 400; 422] /\
  status_code (fst (put_user_body validate user_id body db)) ∈ [200; 404; 422; 500].
Proof.
  assert (forall req, status_code (fst (serve req db)) ∈ status_codes req) as H.
  { clear req. intros req. destruct req as [v|skip limit|i|i v|i]; cbn [serve status_codes].
    - destruct (post_users_status v db) as [-> | ->]; cbn; set_solver.
    - rewrite get_users_eq. destruct (refused _); cbn; set_solver.
    - rewrite get_user_eq. case_bool_decide; [|cbn; set_solver].
      destruct (filter _ _); cbn; set_solver.
    - rewrite put_user_eq. case_bool_decide; [|cbn; set_solver].
      destruct (filter _ _); [cbn; set_solver|].
      destruct (_ || _); cbn; set_solver.
    - rewrite delete_user_route_eq. case_bool_decide; [|cbn; set_solver].
      destruct (filter _ _); cbn; set_solver. }
  split_and!; [done|..]; unfold post_users_body, put_user_body;
    destruct (parse_UserCreate validate body) as [v|]; cbn; try set_solver.
  - specialize (H (Create v)). cbn [serve status_codes] in H.
    set_unfold in H. set_unfold. tauto.
  - specialize (H (Update user_id v)). cbn [serve status_codes] in H.
    set_unfold in H. set_unfold. tauto.
Qed.

(** X4: Whatever the session create_user is given, it returns or raises
    HTTPException(400, "User or Email already exists"), nothing else: the
    except branch catches every exception of commit and refresh, and it
    has rolled the transaction back when it raises. *)
Theorem create_user_raises_400_only v s :
  match create_user v s with
  | (Returned _, _) => True
  | (Raised e, s') =>
      e = HTTPException 400 "User or Email already exists" /\
      transaction s' = NoTransaction
  end.
Proof.
  unfold create_user, try_except, bind, new_UserDB, add, rollback, raise, ret.
  destruct (commit _) as [[[]|e] s1]; [|done].
  by destruct (refresh _ s1) as [[[]|e] s2].
Qed.

(** ** Update *)

Lemma not_written_updated i v (rs : list Row.t) :
  Forall (fun r => ¬ written i v r) (updated i v rs).
Proof.
  apply Forall_forall. intros r Hr [Hi Hv]. apply Hv. by eapply updated_target.
Qed.

Lemma updated_none i v (rs : list Row.t) :
  Forall (fun r => ¬ written i v r) rs -> updated i v rs = rs.
Proof.
  intros H. unfold updated.
  assert (filter (written i v) rs = []) as ->.
  { induction H as [|r rs Hr _ IH]; [done|]. by rewrite filter_cons, decide_False. }
  rewrite app_nil_r.
  induction H as [|r rs Hr _ IH]; [done|]. by rewrite filter_cons, decide_True, IH.
Qed.

Lemma sets_nul_written i v r : Row.id r = i -> sets_nul v r -> written i v r.
Proof.
  intros Hi H. split; [done|]. intros <-. by rewrite sets_nul_own in H.
Qed.

Lemma taken_by_other_updated i v db n :
  taken_by_other i v (mkDatabase (updated i v (rows db)) n) <-> taken_by_other i v db.
Proof.
  unfold taken_by_other. cbn [rows]. rewrite !Exists_exists. split.
  - intros [r [[[Hr _]|[r' (-> & _ & [Hi _])]]%elem_of_updated [Hne Hc]]]; [eauto|].
    by rewrite with_values_id in Hne.
  - intros [r [Hr [Hne Hc]]]. exists r. split; [|done].
    apply elem_of_updated. left. split; [done|]. by intros [? _].
Qed.

(** X5: Update is idempotent: after an Update that was answered with 200,
    the same Update again gives the same answer and leaves the same
    database. *)
Theorem update_idempotent i v db :
  status_code (fst (put_user i v db)) = 200 ->
  put_user i v (snd (put_user i v db)) = put_user i v db.
Proof.
  rewrite (put_user_eq i v db). case_bool_decide as Hr; [|discriminate].
  destruct (filter _ (rows db)) as [|r rest] eqn:Hf; [discriminate|].
  case_bool_decide as Hn; [discriminate|].
  case_bool_decide as Ht; [discriminate|]. intros _. cbn [snd orb].
  assert (stored i db) as Hs.
  { apply dec_stable. intros Hs%filter_id_stored. by rewrite Hs in Hf. }
  pose proof (not_written_updated i v (rows db)) as Hw. rewrite Forall_forall in Hw.
  rewrite put_user_stored; cbn [rows users_id_seq].
  - by rewrite updated_none by by apply Forall_forall.
  - by apply updated_stored.
  - by rewrite taken_by_other_updated.
  - intros [r' [Hr' [Hi Hs']]]%Exists_exists.
    apply (Hw r' Hr'). by apply sets_nul_written.
Qed.

Lemma update_idempotent_witness :
  put_user 2 ann (snd (put_user 2 ann (snd (delete_user_route 1 two_users)))) =
  put_user 2 ann (snd (delete_user_route 1 two_users)).
Proof.
  apply update_idempotent. vm_compute. reflexivity.
Defined.

(** X6: Writing a user back unchanged is accepted: in a table that meets
    its constraints, Update with the id and the four values of a stored
    row is answered with 200 and that user, and the database is the same
    after it.  A row's own email and handle do not count against it. *)
Theorem update_with_own_values r db :
  consistent db ->
  r ∈ rows db ->
  put_user (Row.id r) (Row.values r) db = (mkResponse 200 (JUser (to_response r)), db).
Proof.
  intros [_ Hid He Hu] Hr.
  assert (stored (Row.id r) db) as Hs by (apply Exists_exists; eauto).
  assert (¬ taken_by_other (Row.id r) (Row.values r) db) as Ht.
  { unfold taken_by_other. rewrite Exists_exists. intros [r' [Hr' [Hne [E|E]]]]; cbn in E.
    - apply Hne. f_equal. by apply (NoDup_column_inj Row.email (rows db)).
    - apply Hne. f_equal. by apply (NoDup_column_inj Row.user (rows db)). }
  assert (forall r', r' ∈ rows db -> Row.id r' = Row.id r -> r' = r) as Hone
    by (intros r' Hr' E; by apply (NoDup_column_inj Row.id (rows db))).
  rewrite put_user_stored; [|done..|].
  - rewrite (to_response_of r (Row.id r) (Row.values r)) by done.
    rewrite updated_none; [by rewrite database_eta|].
    apply Forall_forall. intros r' Hr' [Hi Hv]. apply Hv. by rewrite (Hone r' Hr' Hi).
  - intros [r' [Hr' [Hi Hn]]]%Exists_exists.
    rewrite (Hone r' Hr' Hi) in Hn. by rewrite sets_nul_own in Hn.
Qed.

Lemma update_with_own_values_witness :
  put_user 2 bob two_users = (mkResponse 200 (JUser (response_of 2 bob)), two_users).
Proof.
  apply (update_with_own_values (Row.make 2 "Bob" "b@x.com" "bob1" "q") two_users).
  - apply reachable_consistent, reachable_serve, reachable_serve, reachable_startup.
  - vm_compute. right. left.
Defined.

(** X7: update_user has no except branch: an Update of a stored id with an
    email or a handle that another row carries is answered with 500, not
    with the 400 that Create gives, and leaves the database, sequence
    included, as it was. *)
Theorem update_conflict_is_500 i v db :
  stored i db ->
  taken_by_other i v db ->
  put_user i v db = (mkResponse 500 InternalServerError, db).
Proof.
  intros Hs Ht. rewrite put_user_eq. case_bool_decide; [|done].
  destruct (filter _ _) eqn:Hf; [by apply filter_id_stored in Hf|].
  rewrite (bool_decide_true (taken_by_other i v db)) by done. by rewrite orb_true_r.
Qed.

Lemma update_conflict_is_500_witness :
  put_user 1 (UserCreate.mk "Ann" "ann@x.com" "bob1" "p") two_users =
  (mkResponse 500 InternalServerError, two_users).
Proof.
  apply update_conflict_is_500; apply (bool_decide_unpack _); vm_compute; exact I.
Defined.

(** X8: Update never changes which ids are stored: whatever the id, the
    payload and the answer, an id is stored after the request exactly when
    it was stored before. *)
Theorem update_keeps_ids i v db j :
  stored j (snd (put_user i v db)) <-> stored j db.
Proof. apply put_user_stored_iff. Qed.

(** ** Row count *)

Lemma filter_other_ids i (rs : list Row.t) :
  i ∉ Row.id <$> rs -> filter (fun r => Row.id r <> i) rs = rs.
Proof.
  intros H%not_elem_of_ids. induction H as [|r rs Hr _ IH]; [done|].
  rewrite filter_cons, decide_True by done. by rewrite IH.
Qed.

Lemma length_delete_row i (rs : list Row.t) :
  NoDup (Row.id <$> rs) ->
  Exists (fun r => Row.id r = i) rs ->
  S (length (filter (fun r => Row.id r <> i) rs)) = length rs.
Proof.
  induction rs as [|r rs IH]; [by intros _ ?%Exists_nil|].
  cbn [fmap list_fmap]. intros [Hr Hnd]%NoDup_cons Hex. rewrite filter_cons.
  destruct (decide (Row.id r = i)) as [E|E].
  - rewrite decide_False by tauto. subst i. by rewrite filter_other_ids.
  - rewrite decide_True by done. cbn. f_equal. apply IH; [done|].
    by apply Exists_cons in Hex as [?|?].
Qed.

(** X9: In a table that meets its constraints a request changes the
    number of rows by what its answer says: a Create answered with 201
    adds one row, a Delete answered with 200 removes exactly one, every
    other request and every other answer leaves the count as it was. *)
Theorem row_count req db :
  consistent db ->
  Z.of_nat (length (rows (snd (serve req db)))) =
  Z.of_nat (length (rows db)) + rows_added req (fst (serve req db)).
Proof.
  intros [_ Hid _ _]. destruct req as [v|skip limit|i|i v|i]; cbn [serve rows_added].
  - rewrite post_users_eq. destruct (nul_in v).
    { cbn [fst snd conflict status_code]. rewrite bool_decide_false by done. lia. }
    cbn zeta. destruct (int32_of_Z _).
    2: { cbn [fst snd conflict status_code]. rewrite bool_decide_false by done. lia. }
    destruct (_ || _); cbn [fst snd rows conflict status_code].
    + rewrite bool_decide_false by done. lia.
    + rewrite bool_decide_true, length_app by done. cbn. lia.
  - rewrite get_users_eq. cbn. lia.
  - rewrite get_user_eq. cbn. lia.
  - rewrite put_user_eq. case_bool_decide; [|cbn; lia].
    destruct (filter _ _); [cbn; lia|].
    destruct (_ || _); cbn; [lia|].
    rewrite (updated_perm i v (rows db)), length_fmap. lia.
  - rewrite delete_user_route_eq. case_bool_decide.
    2: { cbn [fst snd status_code]. rewrite bool_decide_false by done. lia. }
    destruct (filter (fun r => Row.id r = i) _) eqn:Hf;
      cbn [fst snd rows user_not_found status_code].
    + rewrite bool_decide_false by done. lia.
    + rewrite bool_decide_true by done.
      rewrite <- (length_delete_row i (rows db)); [lia|done|].
      destruct (decide (stored i db)) as [|Hn]; [done|].
      apply filter_id_stored in Hn. by rewrite Hn in Hf.
Qed.

Lemma row_count_witness :
  length (rows (snd (serve (Delete 1) two_users))) = 1%nat.
Proof.
  assert (consistent two_users) as H
    by (apply reachable_consistent, reachable_serve, reachable_serve, reachable_startup).
  pose proof (row_count (Delete 1) two_users H) as E.
  apply Nat2Z.inj. exact E.
Defined.

(** ** Pages *)

(** X10: Pages join: for a skip and two limits that are not negative,
    where the second skip and the sum of the limits still fit the 64 bits
    of the driver, the page of the first limit followed by the page that
    starts where it ends is the page of the two limits together. *)
Theorem pages_join skip a b db :
  0 <= skip -> 0 <= a -> 0 <= b ->
  skip + a < 9223372036854775808 -> a + b < 9223372036854775808 ->
  listed (fst (get_users (Some skip) (Some (a + b)) db)) =
  listed (fst (get_users (Some skip) (Some a) db)) ++
  listed (fst (get_users (Some (skip + a)) (Some b) db)).
Proof.
  intros Hs Ha Hb Hsa Hab. rewrite !get_users_page by lia. cbn [fst listed body].
  rewrite <- fmap_app. f_equal.
  rewrite !Z2Nat.inj_add by lia. rewrite <- drop_drop. apply eq_sym, take_take_drop.
Qed.

Lemma pages_join_witness :
  listed (fst (get_users (Some 0) (Some (1 + 1)) two_users)) =
  listed (fst (get_users (Some 0) (Some 1) two_users)) ++
  listed (fst (get_users (Some (0 + 1)) (Some 1) two_users)).
Proof. apply pages_join; lia. Defined.

(** X11: A page past the end is not an error: for a skip and a limit
    that are not negative and fit the 64 bits of the driver, with a skip
    of at least the number of stored rows, or with a limit of 0, List
    answers 200 with the empty list. *)
Theorem page_past_the_end skip limit db :
  0 <= skip < 9223372036854775808 -> 0 <= limit < 9223372036854775808 ->
  Z.of_nat (length (rows db)) <= skip \/ limit = 0 ->
  get_users (Some skip) (Some limit) db = (mkResponse 200 (JUsers []), db).
Proof.
  intros Hs Hl H. rewrite get_users_page by done. do 3 f_equal.
  destruct H as [H| ->]; [|done].
  rewrite drop_ge by lia. by rewrite take_nil.
Qed.

Lemma page_past_the_end_witness :
  get_users (Some 2) (Some 10) two_users = (mkResponse 200 (JUsers []), two_users) /\
  get_users (Some 0) (Some 0) two_users = (mkResponse 200 (JUsers []), two_users).
Proof.
  split.
  - apply page_past_the_end; [lia | lia | left; vm_compute; discriminate].
  - apply page_past_the_end; [lia | lia | right; reflexivity].
Defined.

(** X12: Without parameters List answers with the first 100 stored users
    at most: all of them, in order, when the table has no more than 100
    rows, and never more than 100. *)
Theorem default_page db :
  (length (listed (fst (get_users None None db))) <= 100)%nat /\
  ((length (rows db) <= 100)%nat ->
   get_users None None db = (mkResponse 200 (JUsers (to_response <$> rows db)), db)).
Proof.
  change (get_users None None db) with (get_users (Some 0) (Some 100) db).
  rewrite get_users_page by lia. cbn [fst listed body]. split.
  - rewrite length_fmap, length_take. lia.
  - intros H. change (Z.to_nat 0) with 0%nat. rewrite drop_0.
    by rewrite take_ge by (change (Z.to_nat 100) with 100%nat; lia).
Qed.

Lemma default_page_witness :
  get_users None None two_users =
  (mkResponse 200 (JUsers (to_response <$> rows two_users)), two_users).
Proof.
  apply default_page. vm_compute. repeat constructor.
Defined.

(** X13: What List shows, Get finds: in a table with a primary key, every
    user of a page is the answer of Get on its id. *)
Theorem listed_user_is_found skip limit db u :
  NoDup (Row.id <$> rows db) ->
  u ∈ listed (fst (get_users skip limit db)) ->
  fst (get_user (UserResponse.id u) db) = mkResponse 200 (JUser u).
Proof.
  intros Hnd. rewrite get_users_eq. destruct (refused _); cbn [fst listed body].
  { by intros ?%not_elem_of_nil. }
  intros [r [-> Hr]]%list_elem_of_fmap.
  apply subseteq_take, subseteq_drop in Hr.
  rewrite get_user_eq. cbn [fst to_response UserResponse.id].
  rewrite bool_decide_true by apply row_id_in_int32.
  by rewrite (stored_unique (Row.id r) r).
Qed.

Lemma listed_user_is_found_witness :
  fst (get_user 2 two_users) = mkResponse 200 (JUser (response_of 2 bob)).
Proof.
  apply (listed_user_is_found (Some 1) None two_users (response_of 2 bob)).
  - apply (bool_decide_unpack _). vm_compute. exact I.
  - vm_compute. left.
Defined.

(** ** Bodies *)

(** X14: A body that lacks one of name, email, user, password is refused
    with 422 by POST /users and by PUT /users/{user_id} alike, and the
    handler does not run: the database is as it was. *)
Theorem missing_field_is_422 validate (body : gmap string json) field user_id db :
  field ∈ ["name"; "email"; "user"; "password"] ->
  body !! field = None ->
  post_users_body validate body db = (mkResponse 422 ValidationErrors, db) /\
  put_user_body validate user_id body db = (mkResponse 422 ValidationErrors, db).
Proof.
  intros Hf Hb.
  assert (parse_UserCreate validate body = None) as Hp.
  { unfold parse_UserCreate.
    destruct (body !! "name" ≫= validate) eqn:E1; cbn; [|done].
    destruct (body !! "email" ≫= validate) eqn:E2; cbn; [|done].
    destruct (body !! "user" ≫= validate) eqn:E3; cbn; [|done].
    destruct (body !! "password" ≫= validate) eqn:E4; cbn; [|done].
    exfalso. set_unfold in Hf.
    destruct Hf as [->|[->|[->|[->|[]]]]]; rewrite Hb in *; discriminate. }
  unfold post_users_body, put_user_body. by rewrite Hp.
Qed.

Lemma missing_field_is_422_witness :
  post_users_body strict_str (delete "password" ann_body_with_id) two_users =
  (mkResponse 422 ValidationErrors, two_users).
Proof.
  apply (missing_field_is_422 strict_str _ "password" 0).
  - set_solver.
  - apply lookup_delete_eq.
Defined.

(** ** Delete, then Create *)

(** X15: Deleting a user frees its email and its handle: in a table that
    meets its constraints and while the sequence has ids left, a Create
    with the values of a row just deleted, none with a NUL character, is
    answered with 201, under the next value of the sequence and not under
    the id the row had. *)
Theorem delete_then_create r db :
  consistent db ->
  r ∈ rows db ->
  nul_in (Row.values r) = false ->
  users_id_seq db < 2147483647 ->
  let db' := snd (delete_user_route (Row.id r) db) in
  fst (post_users (Row.values r) db') =
    mkResponse 201 (JUser (response_of (users_id_seq db + 1) (Row.values r))) /\
  users_id_seq db + 1 <> Row.id r.
Proof.
  intros [Hseq Hid He Hu] Hr Hn Hmax db'.
  assert (Row.id r <= users_id_seq db) as Hle by (rewrite Forall_forall in Hseq; auto).
  split; [|lia].
  assert (rows db' = filter (fun r' => Row.id r' <> Row.id r) (rows db) /\
          users_id_seq db' = users_id_seq db) as [Hrows Hs].
  { unfold db'. rewrite delete_user_route_eq.
    rewrite bool_decide_true by apply row_id_in_int32.
    destruct (filter (fun r' => Row.id r' = Row.id r) _) eqn:Hf; [|done].
    apply filter_id_stored in Hf. destruct Hf. apply Exists_exists. eauto. }
  destruct (post_users_fresh (Row.values r) db') as (k & _ & ->); [..|by rewrite Hs].
  - unfold ids_issued. rewrite Hrows, Hs. apply Forall_forall.
    intros r' [_ Hr']%list_elem_of_filter. rewrite Forall_forall in Hseq. auto.
  - unfold taken. rewrite Hrows, Exists_exists.
    intros [r' [[Hne Hr']%list_elem_of_filter [E|E]]]; cbn in E; apply Hne; f_equal.
    + by apply (NoDup_column_inj Row.email (rows db)).
    + by apply (NoDup_column_inj Row.user (rows db)).
  - done.
  - rewrite Hs. pose proof (row_id_in_int32 r). unfold in_int32 in *. lia.
Qed.

Lemma delete_then_create_witness :
  fst (post_users ann (snd (delete_user_route 1 two_users))) =
  mkResponse 201 (JUser (response_of 3 ann)).
Proof.
  apply (delete_then_create (Row.make 1 "Ann" "a@x.com" "ann1" "p") two_users).
  - apply reachable_consistent, reachable_serve, reachable_serve, reachable_startup.
  - vm_compute. left.
  - reflexivity.
  - vm_compute. reflexivity.
Defined.

(** ** Configuration *)

Lemma string_app_assoc (s1 s2 s3 : string) :
  ((s1 +:+ s2) +:+ s3 = s1 +:+ (s2 +:+ s3))%stdpp.
Proof.
  induction s1 as [|a s1 IH]; [done|].
  change (String a ((s1 +:+ s2) +:+ s3) = String a (s1 +:+ (s2 +:+ s3)))%stdpp.
  by rewrite IH.
Qed.

(** X16: A variable that is not set gives its default, a variable that is
    set gives its value, the empty string included; the URL is the scheme
    postgresql+asyncpg, the port 5432 and these four values, and no other
    variable of the environment has a part in it. *)
Theorem database_url_of_environment (environ : gmap string string) key value :
  key ∉ ["DB_USER"; "DB_PASSWORD"; "DB_HOST"; "DB_NAME"] ->
  DATABASE_URL (<[key := value]> environ) = DATABASE_URL environ /\
  DATABASE_URL (delete key environ) = DATABASE_URL environ /\
  (forall u p h n,
     DATABASE_URL (<["DB_USER" := u]> (<["DB_PASSWORD" := p]>
                    (<["DB_HOST" := h]> (<["DB_NAME" := n]> environ)))) =
     ("postgresql+asyncpg://" +:+ u +:+ ":" +:+ p +:+ "@" +:+ h +:+ ":5432/" +:+ n)%stdpp) /\
  DATABASE_URL ∅ = "postgresql+asyncpg://user_db:password_db@db:5432/users_db".
Proof.
  intros Hk.
  assert (key <> "DB_USER" /\ key <> "DB_PASSWORD" /\ key <> "DB_HOST" /\ key <> "DB_NAME")
    as (H1 & H2 & H3 & H4) by set_solver.
  unfold DATABASE_URL, DB_USER, DB_PASSWORD, DB_HOST, DB_NAME, getenv.
  split_and!.
  - by rewrite !lookup_insert_ne.
  - by rewrite !lookup_delete_ne.
  - intros u p h n. by simplify_map_eq.
  - by rewrite !lookup_empty.
Qed.

Lemma database_url_of_environment_witness :
  DATABASE_URL (<["PATH" := "/usr/bin"]> (<["DB_PASSWORD" := ""]> ∅)) =
  DATABASE_URL (<["DB_PASSWORD" := ""]> ∅).
Proof.
  apply (database_url_of_environment (<["DB_PASSWORD" := ""]> ∅) "PATH" "/usr/bin").
  apply (bool_decide_unpack _). vm_compute. exact I.
Defined.

(** X17: The values are pasted into the URL unescaped, so the URL does
    not tell where the user ends and the password begins: a colon moved
    from the one to the other gives the same URL. *)
Theorem database_url_not_escaped (environ : gmap string string) u s p :
  DATABASE_URL (<["DB_USER" := (u +:+ ":" +:+ s)%stdpp]> (<["DB_PASSWORD" := p]> environ)) =
  DATABASE_URL (<["DB_USER" := u]> (<["DB_PASSWORD" := (s +:+ ":" +:+ p)%stdpp]> environ)).
Proof.
  unfold DATABASE_URL, DB_USER, DB_PASSWORD, DB_HOST, DB_NAME, getenv.
  simplify_map_eq. by rewrite !string_app_assoc.
Qed.

(** ** Create and the stored rows *)

